(** * Dexter agent: conversation orchestration, resilience layer and history trimming

  A shallow embedding of
    - [lib/ai/error_handler.py]  (error classes, [classify_error], [with_retry],
      [retry_on_error], [RateLimiter]),
    - [lib/ai/openai_service.py] ([ChatMessage], [estimate_tokens],
      [trim_conversation_history], [generate_response]),
    - [main.py]                  ([DexterAgent._execute_tool], [_call_openai], [chat]).

  Modelling conventions.
    - Python [str] values are [string]s; the texts handled here are ASCII, on which
      [str.lower] is the ASCII lower-casing [lower] and [len] is [String.length].
    - Python [int]s are [Z]; wall-clock readings and durations are exact numbers ([Z]
      ticks for the limiter, [Q] seconds for the back-off delays).
    - An exception is a value of [PyException]; code that may raise returns an
      [outcome].  Only [Exception] subclasses are modelled, which is what the
      [except Exception] handlers of the source catch.
    - Effects (calls of an operation, sleeps, completion requests) are recorded in a
      call-tree shaped trace of [Event]s. *)

From Stdlib Require Import List ZArith QArith Bool Ascii String Lia.
Import ListNotations.

Set Warnings "-register-all".

Local Open Scope string_scope.
Local Open Scope list_scope.
Local Open Scope Z_scope.

(* ================================================================== *)
(** ** Python strings *)
(* ================================================================== *)

Module PyStr.

(** [len(s)] *)
Definition len (s : string) : Z := Z.of_nat (String.length s).

(** [str.lower] on one ASCII character. *)
Definition lower_ascii (c : ascii) : ascii :=
  let n := N_of_ascii c in
  if ((65 <=? n) && (n <=? 90))%N then ascii_of_N (n + 32) else c.

(** [s.lower()] *)
Fixpoint lower (s : string) : string :=
  match s with
  | EmptyString => EmptyString
  | String c t => String (lower_ascii c) (lower t)
  end.

(** [hay.startswith(needle)] *)
Fixpoint startswith (needle hay : string) : bool :=
  match needle, hay with
  | EmptyString, _ => true
  | String _ _, EmptyString => false
  | String a n', String b h' => Ascii.eqb a b && startswith n' h'
  end.

(** [needle in hay] *)
Fixpoint contains (needle hay : string) : bool :=
  startswith needle hay ||
  match hay with
  | EmptyString => false
  | String _ t => contains needle t
  end.

(** [c * n] for a one-character string [c]. *)
Fixpoint replicate (n : nat) (c : ascii) : string :=
  match n with
  | O => EmptyString
  | S k => String c (replicate k c)
  end.

(** The declarative reading of [needle in hay]. *)
Definition Substring (needle hay : string) : Prop :=
  exists pre post, hay = (pre ++ needle ++ post)%string.

End PyStr.

(* ================================================================== *)
(** ** [lib/ai/error_handler.py]: error classes and classification *)
(* ================================================================== *)

Module ErrorHandler.
Import PyStr.

(** The Python class of an error object: [OpenAIError] and its five subclasses.
    In the words of the specification these are the kinds Unknown, RateLimited,
    AuthenticationFailed, InvalidRequest, ServiceUnavailable and ContextTooLong. *)
Inductive ErrorClass : Type :=
| COpenAIError
| CRateLimitError
| CAuthenticationError
| CInvalidRequestError
| CServiceUnavailableError
| CContextLengthExceededError.

(** The attributes set by [OpenAIError.__init__]. *)
Record OpenAIError : Type := mkOpenAIError {
  err_class   : ErrorClass;
  message     : string;
  status_code : option Z;
  retryable   : bool;
  retry_after : option Z
}.

(** [OpenAIError(message, status_code=None, retryable=False, retry_after=None)] *)
Definition OpenAIError_init (msg : string) (sc : option Z) (r : bool) (ra : option Z) :=
  mkOpenAIError COpenAIError msg sc r ra.

(** [RateLimitError(message, retry_after=60)] *)
Definition RateLimitError (msg : string) (ra : Z) : OpenAIError :=
  mkOpenAIError CRateLimitError msg (Some 429) true (Some ra).

(** [AuthenticationError(message)] *)
Definition AuthenticationError (msg : string) : OpenAIError :=
  mkOpenAIError CAuthenticationError msg (Some 401) false None.

(** [InvalidRequestError(message)] *)
Definition InvalidRequestError (msg : string) : OpenAIError :=
  mkOpenAIError CInvalidRequestError msg (Some 400) false None.

(** [ServiceUnavailableError(message)] *)
Definition ServiceUnavailableError (msg : string) : OpenAIError :=
  mkOpenAIError CServiceUnavailableError msg (Some 503) true (Some 30).

(** [ContextLengthExceededError(message)] *)
Definition ContextLengthExceededError (msg : string) : OpenAIError :=
  mkOpenAIError CContextLengthExceededError msg (Some 400) false None.

(** A raised [Exception]: either an [OpenAIError] instance or an instance of some
    other class, given by its class name and its text. *)
Inductive PyException : Type :=
| OpenAIErr (e : OpenAIError)
| OtherException (cls : string) (msg : string).

(** [str(error)]: [OpenAIError.__init__] passes [message] to [Exception.__init__]. *)
Definition py_str (e : PyException) : string :=
  match e with
  | OpenAIErr e => message e
  | OtherException _ msg => msg
  end.

(** The result of running code that may raise. *)
Inductive outcome (A : Type) : Type :=
| Returned (a : A)
| Raised (e : PyException).
Arguments Returned {A} a.
Arguments Raised {A} e.

Definition classify_error (error : PyException) : OpenAIError :=
  let error_str := lower (py_str error) in
  if contains "rate limit" error_str || contains "429" error_str then
    RateLimitError (py_str error) 60
  else if contains "authentication" error_str || contains "401" error_str
          || contains "api key" error_str then
    AuthenticationError (py_str error)
  else if contains "400" error_str || contains "invalid" error_str then
    InvalidRequestError (py_str error)
  else if contains "503" error_str || contains "unavailable" error_str
          || contains "timeout" error_str then
    ServiceUnavailableError (py_str error)
  else if contains "context length" error_str || contains "token limit" error_str then
    ContextLengthExceededError (py_str error)
  else
    OpenAIError_init (py_str error) None true None.

(** The marker groups of the classifier, read declaratively on the lower-cased text. *)
Definition rate_limit_marker (s : string) : Prop :=
  Substring "rate limit" s \/ Substring "429" s.
Definition authentication_marker (s : string) : Prop :=
  Substring "authentication" s \/ Substring "401" s \/ Substring "api key" s.
Definition invalid_request_marker (s : string) : Prop :=
  Substring "400" s \/ Substring "invalid" s.
Definition unavailable_marker (s : string) : Prop :=
  Substring "503" s \/ Substring "unavailable" s \/ Substring "timeout" s.
Definition context_length_marker (s : string) : Prop :=
  Substring "context length" s \/ Substring "token limit" s.


(* ------------------------------------------------------------------ *)
(** *** Effects *)

(** What the code does to the outside world, as a call tree: [EvCall attempt inner]
    is one invocation of the wrapped operation by [with_retry], with the effects the
    operation performed during that invocation. *)
Inductive Event : Type :=
| EvCall (attempt : Z) (inner : list Event)
| EvSleep (delay : Q)
| EvGrant (now : Z)
| EvCompletion.

(** An awaitable operation over a state [St]: its outcome, the next state and the
    effects performed. *)
Definition Op (St A : Type) : Type := St -> outcome A * St * list Event.

(** Number of invocations that a trace of [with_retry] records. *)
Definition calls (tr : list Event) : nat :=
  List.length (filter (fun ev => match ev with EvCall _ _ => true | _ => false end) tr).

(** [range(n)] *)
Definition py_range (n : Z) : list Z := map Z.of_nat (seq 0 (Z.to_nat n)).

(* ------------------------------------------------------------------ *)
(** *** [with_retry] and [retry_on_error] *)

(** The wait computed after a failed attempt. *)
Definition retry_delay (classified_error : OpenAIError) (base_delay : Q)
    (exponential_backoff : bool) (attempt : Z) : Q :=
  let otherwise :=
    if exponential_backoff then Qmult base_delay (inject_Z (2 ^ attempt))
    else base_delay in
  match retry_after classified_error with
  | Some ra => if ra =? 0 then otherwise else inject_Z ra
  | None => otherwise
  end.

Section WithRetry.
Context {St A : Type}.
Variable func : Op St A.
Variable max_retries : Z.
Variable base_delay : Q.
Variable exponential_backoff : bool.

(** The body of [for attempt in range(max_retries + 1)], followed by the statements
    after the loop. *)
Fixpoint retry_loop (attempts : list Z) (last_error : option PyException) (s : St)
    : outcome A * St * list Event :=
  match attempts with
  | [] =>
      match last_error with
      | Some e => (Raised (OpenAIErr (classify_error e)), s, [])
      | None =>
          (Raised (OpenAIErr (OpenAIError_init "Unexpected error in retry logic"
                                               None false None)), s, [])
      end
  | attempt :: rest =>
      let '(r, s1, inner) := func s in
      match r with
      | Returned v => (Returned v, s1, [EvCall attempt inner])
      | Raised e =>
          let classified_error := classify_error e in
          if negb (retryable classified_error) then
            (Raised (OpenAIErr classified_error), s1, [EvCall attempt inner])
          else if attempt >=? max_retries then
            (Raised (OpenAIErr classified_error), s1, [EvCall attempt inner])
          else
            let delay :=
              retry_delay classified_error base_delay exponential_backoff attempt in
            let '(r', s2, tr) := retry_loop rest (Some e) s1 in
            (r', s2, EvCall attempt inner :: EvSleep delay :: tr)
      end
  end.

Definition with_retry : Op St A :=
  retry_loop (py_range (max_retries + 1)) None.

(** The state reached after [n] invocations of [func]. *)
Fixpoint state_after (n : nat) (s : St) : St :=
  match n with
  | O => s
  | S k => state_after k (snd (fst (func s)))
  end.

(** The outcome of the invocation number [n] (counted from zero). *)
Definition outcome_at (n : nat) (s : St) : outcome A :=
  fst (fst (func (state_after n s))).

End WithRetry.

(** [@retry_on_error(max_retries, base_delay, exponential_backoff)] applied to [func] *)
Definition retry_on_error {St A : Type} (max_retries : Z) (base_delay : Q)
    (exponential_backoff : bool) (func : Op St A) : Op St A :=
  with_retry func max_retries base_delay exponential_backoff.

(* ------------------------------------------------------------------ *)
(** *** [RateLimiter] *)

Record RateLimiter : Type := mkRateLimiter {
  max_requests : Z;
  time_window  : Z;
  requests     : list Z
}.

(** [RateLimiter(max_requests, time_window)] *)
Definition RateLimiter_init (max_requests time_window : Z) : RateLimiter :=
  mkRateLimiter max_requests time_window [].

Definition set_requests (self : RateLimiter) (reqs : list Z) : RateLimiter :=
  mkRateLimiter (max_requests self) (time_window self) reqs.

Definition IndexError : PyException :=
  OtherException "IndexError" "list index out of range".

(** [await self.acquire()], entered when [time.time()] reads [now].  A sleep of
    [wait_time] ends [late 0] ticks late, the next one [late 1] ticks late, and so
    on.  [fuel] bounds the depth of the recursion; [None] is fuel exhaustion. *)
Fixpoint acquire (fuel : nat) (late : nat -> nat) (self : RateLimiter) (now : Z)
    : option (outcome unit * RateLimiter * list Event) :=
  match fuel with
  | O => None
  | S fuel' =>
      let cutoff := now - time_window self in
      let self := set_requests self (filter (fun ts => ts >? cutoff) (requests self)) in
      let register :=
        Some (Returned tt, set_requests self (requests self ++ [now]), [EvGrant now]) in
      if Z.of_nat (List.length (requests self)) >=? max_requests self then
        match requests self with
        | [] => Some (Raised IndexError, self, [])
        | oldest :: _ =>
            let wait_time := time_window self - (now - oldest) in
            if wait_time >? 0 then
              match acquire fuel' (fun i => late (S i)) self
                            (now + wait_time + Z.of_nat (late O)) with
              | Some (r, self', tr) => Some (r, self', EvSleep (inject_Z wait_time) :: tr)
              | None => None
              end
            else register
        end
      else register
  end.

End ErrorHandler.

(* ================================================================== *)
(** ** [lib/ai/openai_service.py] *)
(* ================================================================== *)

Module OpenAIService.
Import PyStr ErrorHandler.

Inductive Role : Type := system | user | assistant | tool.

Definition is_system (r : Role) : bool :=
  match r with system => true | _ => false end.

(** One requested tool invocation: [id], [function.name], [function.arguments]. *)
Record ToolCall : Type := mkToolCall {
  tc_id        : string;
  tc_name      : string;
  tc_arguments : string
}.

Record ChatMessage : Type := mkChatMessage {
  role         : Role;
  content      : string;
  name         : option string;
  tool_call_id : option string;
  tool_calls   : option (list ToolCall)
}.

Record OpenAIResponse : Type := mkOpenAIResponse {
  resp_content       : string;
  resp_tokens_used   : Z;
  resp_model         : string;
  resp_finish_reason : string;
  resp_tool_calls    : option (list ToolCall)
}.

(** [max(1, len(text) // 4)] *)
Definition estimate_tokens (text : string) : Z :=
  Z.max 1 (len text / 4).

(** [sum(self.estimate_tokens(m.content) for m in msgs)] *)
Definition sum_tokens (msgs : list ChatMessage) : Z :=
  fold_right (fun m acc => estimate_tokens (content m) + acc) 0 msgs.

(** The loop [for message in reversed(other_messages)] of
    [trim_conversation_history]; [trimmed_other.insert(0, message)] is a cons. *)
Fixpoint trim_walk (reversed_other : list ChatMessage) (remaining_tokens : Z)
    (current_tokens : Z) (trimmed_other : list ChatMessage) : list ChatMessage :=
  match reversed_other with
  | [] => trimmed_other
  | message :: rest =>
      let msg_tokens := estimate_tokens (content message) in
      if current_tokens + msg_tokens >? remaining_tokens then trimmed_other
      else trim_walk rest remaining_tokens (current_tokens + msg_tokens)
                     (message :: trimmed_other)
  end.

Definition trim_conversation_history (messages : list ChatMessage) (max_tokens : Z)
    : list ChatMessage :=
  let system_messages := filter (fun m => is_system (role m)) messages in
  let other_messages := filter (fun m => negb (is_system (role m))) messages in
  let system_tokens := sum_tokens system_messages in
  let remaining_tokens := max_tokens - system_tokens in
  system_messages ++ trim_walk (rev other_messages) remaining_tokens 0 [].

(** The ceiling of [n / 4]: the least integer [c] with [n <= 4 * c]. *)
Definition is_ceil_quarter (n c : Z) : Prop := 4 * (c - 1) < n <= 4 * c.

(** The floor of [n / 4]: the greatest integer [q] with [4 * q <= n]. *)
Definition is_floor_quarter (n q : Z) : Prop := 4 * q <= n < 4 * (q + 1).

Section Completion.
Context {Svc : Type}.

(** The completion service behind [self.client.chat.completions.create], together
    with the reading of [choices[0]] and [usage]: given the transcript it either
    yields the normalised response or raises. *)
Variable create : list ChatMessage -> Svc -> outcome OpenAIResponse * Svc.

(** [generate_response]: every exception of the body is re-raised as an
    [OpenAIServiceError] carrying the original text. *)
Definition generate_response (messages : list ChatMessage) : Op Svc OpenAIResponse :=
  fun svc =>
    let '(r, svc') := create messages svc in
    match r with
    | Returned response => (Returned response, svc', [EvCompletion])
    | Raised e =>
        (Raised (OtherException "OpenAIServiceError"
                   ("Fehler bei OpenAI API Call: " ++ py_str e)%string), svc', [EvCompletion])
    end.

End Completion.

End OpenAIService.

(* ================================================================== *)
(** ** [main.py]: the agent *)
(* ================================================================== *)

Module Agent.
Import PyStr ErrorHandler OpenAIService.

(** Decoded structured data, as [json.loads] produces it. *)
Inductive Json : Type :=
| JNull
| JBool (b : bool)
| JNum (n : Z)
| JStr (s : string)
| JArr (items : list Json)
| JObj (fields : list (string * Json)).

(** A Python [dict] with string keys, in insertion order. *)
Definition Dict : Type := list (string * Json).

(** [key in d] *)
Definition dict_mem (key : string) (d : Dict) : bool :=
  existsb (fun kv => String.eqb (fst kv) key) d.

(** [d[key]] *)
Definition dict_get (key : string) (d : Dict) : option Json :=
  option_map snd (find (fun kv => String.eqb (fst kv) key) d).

(** What the generator yields: text, or a tool's [formatted_output] value. *)
Inductive Chunk : Type :=
| Text (s : string)
| Formatted (v : option Json).

(** The two line feeds that frame every notice. *)
Definition nl2 : string := String (ascii_of_nat 10) (String (ascii_of_nat 10) "").

Record DexterAgent : Type := mkDexterAgent {
  conversation_history : list ChatMessage;
  system_prompt        : string;
  turn_count           : Z
}.

(** The result of draining the generator [chat]. *)
Record ChatRun (Svc : Type) : Type := mkChatRun {
  run_agent     : DexterAgent;
  run_chunks    : list Chunk;
  run_iteration : Z;
  run_svc       : Svc;
  run_trace     : list Event
}.
Arguments mkChatRun {Svc}.
Arguments run_agent {Svc}.
Arguments run_chunks {Svc}.
Arguments run_iteration {Svc}.
Arguments run_svc {Svc}.
Arguments run_trace {Svc}.

Definition max_iterations_reached_notice : string :=
  (nl2 ++ "⚠️ Maximale Anzahl an Iterationen erreicht." ++ nl2)%string.

Section Driver.
Context {Svc : Type}.

(** The completion service (see [generate_response]). *)
Variable create : list ChatMessage -> Svc -> outcome OpenAIResponse * Svc.

(** The six imported tools; [calculate_roi tool_input] stands for awaiting
    [calculate_roi] on the keyword-unpacked [tool_input], unpacking included. *)
Variables calculate_roi forecast_sales calculate_pnl generate_balance_sheet
  generate_cash_flow_statement analyze_break_even : Json -> outcome Dict.

(** [json.loads], [None] being [JSONDecodeError], and [json.dumps]. *)
Variable json_loads : string -> option Json.
Variable json_dumps : Dict -> string.

Definition _execute_tool (tool_name : string) (tool_input : Json) : outcome Dict :=
  let body :=
    if String.eqb tool_name "calculate_roi" then calculate_roi tool_input
    else if String.eqb tool_name "forecast_sales" then forecast_sales tool_input
    else if String.eqb tool_name "calculate_pnl" then calculate_pnl tool_input
    else if String.eqb tool_name "generate_balance_sheet" then
      generate_balance_sheet tool_input
    else if String.eqb tool_name "generate_cash_flow_statement" then
      generate_cash_flow_statement tool_input
    else if String.eqb tool_name "analyze_break_even" then analyze_break_even tool_input
    else Raised (OtherException "ValueError" ("Unknown tool: " ++ tool_name)%string) in
  match body with
  | Returned result => Returned result
  | Raised e =>
      Returned [("error", JStr (py_str e)); ("tool_name", JStr tool_name)]
  end.

(** The name to handler mapping that the [if]/[elif] chain realises. *)
Definition registry : list (string * (Json -> outcome Dict)) :=
  [ ("calculate_roi", calculate_roi);
    ("forecast_sales", forecast_sales);
    ("calculate_pnl", calculate_pnl);
    ("generate_balance_sheet", generate_balance_sheet);
    ("generate_cash_flow_statement", generate_cash_flow_statement);
    ("analyze_break_even", analyze_break_even) ].

Definition lookup_tool (tool_name : string) : option (Json -> outcome Dict) :=
  option_map snd (find (fun kv => String.eqb tool_name (fst kv)) registry).

(** [@retry_on_error(max_retries=3, base_delay=1.0)] around the completion call. *)
Definition _call_openai (messages : list ChatMessage) : Op Svc OpenAIResponse :=
  retry_on_error 3 1 true (generate_response create messages).

(** The two [except] clauses of the loop body. *)
Definition error_notice (e : PyException) : Chunk :=
  match e with
  | OpenAIErr e => Text (nl2 ++ "❌ Ein Fehler ist aufgetreten: " ++ message e ++ nl2)%string
  | OtherException _ _ =>
      Text (nl2 ++ "❌ Ein unerwarteter Fehler ist aufgetreten: " ++ py_str e ++ nl2)%string
  end.

(** [for tool_call in tool_calls]: the first component is the exception that
    interrupted the loop, if any. *)
Fixpoint run_tool_calls (pending : list ToolCall) (history : list ChatMessage)
    (chunks : list Chunk) : option PyException * list ChatMessage * list Chunk :=
  match pending with
  | [] => (None, history, chunks)
  | tool_call :: rest =>
      let tool_name := tc_name tool_call in
      let tool_call_id := tc_id tool_call in
      let tool_input :=
        match json_loads (tc_arguments tool_call) with
        | Some decoded => decoded
        | None => JObj []
        end in
      let chunks :=
        chunks ++ [Text (nl2 ++ "[Verwende Tool: " ++ tool_name ++ "]" ++ nl2)%string] in
      match _execute_tool tool_name tool_input with
      | Raised e => (Some e, history, chunks)
      | Returned tool_result =>
          let chunks :=
            if dict_mem "formatted_output" tool_result then
              chunks ++ [Formatted (dict_get "formatted_output" tool_result)]
            else chunks in
          let history :=
            history ++ [mkChatMessage tool (json_dumps tool_result) (Some tool_name)
                                      (Some tool_call_id) None] in
          run_tool_calls rest history chunks
      end
  end.

(** Truthiness of [response.tool_calls]. *)
Definition requested (response : OpenAIResponse) : list ToolCall :=
  match resp_tool_calls response with
  | Some tcs => tcs
  | None => []
  end.

(** [while iteration < max_iterations]: [remaining] is the number of times the
    loop test can still succeed, [max_iterations - iteration]. *)
Fixpoint chat_loop (remaining : nat) (iteration : Z) (history : list ChatMessage)
    (chunks : list Chunk) (svc : Svc) (trace : list Event)
    : Z * list ChatMessage * list Chunk * Svc * list Event :=
  match remaining with
  | O => (iteration, history, chunks, svc, trace)
  | S remaining' =>
      let iteration := iteration + 1 in
      let '(r, svc, tr) := _call_openai history svc in
      let trace := trace ++ tr in
      match r with
      | Raised e => (iteration, history, chunks ++ [error_notice e], svc, trace)
      | Returned response =>
          if String.eqb (resp_finish_reason response) "stop" then
            if String.eqb (resp_content response) "" then
              (iteration, history, chunks, svc, trace)
            else
              (iteration,
               history ++ [mkChatMessage assistant (resp_content response) None None None],
               chunks ++ [Text (resp_content response)], svc, trace)
          else if String.eqb (resp_finish_reason response) "tool_calls"
                  && negb (Nat.eqb (List.length (requested response)) 0) then
            let pending := requested response in
            let history :=
              history ++ [mkChatMessage assistant "" None None (Some pending)] in
            match run_tool_calls pending history chunks with
            | (Some e, history, chunks) =>
                (iteration, history, chunks ++ [error_notice e], svc, trace)
            | (None, history, chunks) =>
                chat_loop remaining' iteration history chunks svc trace
            end
          else if String.eqb (resp_content response) "" then
            (iteration, history, chunks, svc, trace)
          else
            (iteration, history, chunks ++ [Text (resp_content response)], svc, trace)
      end
  end.

Definition chat (self : DexterAgent) (user_message : string) (svc : Svc) : ChatRun Svc :=
  let turn_count := turn_count self + 1 in
  let history := conversation_history self in
  let history :=
    match history with
    | [] => history ++ [mkChatMessage system (system_prompt self) None None None]
    | _ :: _ => history
    end in
  let history := history ++ [mkChatMessage user user_message None None None] in
  let max_iterations := 10 in
  let iteration := 0 in
  let '(iteration, history, chunks, svc, trace) :=
    chat_loop (Z.to_nat (max_iterations - iteration)) iteration history [] svc [] in
  let chunks :=
    if iteration >=? max_iterations then chunks ++ [Text max_iterations_reached_notice]
    else chunks in
  mkChatRun (mkDexterAgent history (system_prompt self) turn_count)
            chunks iteration svc trace.

End Driver.

(** [reset_conversation] *)
Definition reset_conversation (self : DexterAgent) : DexterAgent :=
  mkDexterAgent [] (system_prompt self) 0.

(* ------------------------------------------------------------------ *)
(** *** Reading a trace *)

(** Every completion request of the trace lies inside an invocation made by
    [with_retry]. *)
Fixpoint wrapped_in_retry (inside : bool) (ev : Event) : bool :=
  match ev with
  | EvCall _ inner => forallb (wrapped_in_retry true) inner
  | EvCompletion => inside
  | EvSleep _ | EvGrant _ => true
  end.

(** What one call of [_call_openai] may leave at the top of the trace: a sleep, or
    an attempt numbered 0 to 3 that made exactly one completion request. *)
Definition is_retry_event (ev : Event) : bool :=
  match ev with
  | EvCall attempt [EvCompletion] => (0 <=? attempt) && (attempt <=? 3)
  | EvSleep _ => true
  | _ => false
  end.

(** The effects in the order they happen. *)
Fixpoint flatten (ev : Event) : list Event :=
  match ev with
  | EvCall attempt inner => flat_map flatten inner
  | _ => [ev]
  end.

(** Every completion request consumes a grant of the rate limiter obtained since
    the previous completion request. *)
Fixpoint gated_by_limiter (granted : bool) (flat : list Event) : bool :=
  match flat with
  | [] => true
  | EvGrant _ :: rest => gated_by_limiter true rest
  | EvCompletion :: rest => granted && gated_by_limiter false rest
  | _ :: rest => gated_by_limiter granted rest
  end.

(** Number of grants of the rate limiter in a trace. *)
Definition grants (trace : list Event) : nat :=
  List.length (filter (fun ev => match ev with EvGrant _ => true | _ => false end)
                      (flat_map flatten trace)).

(** Number of completion requests in a trace. *)
Definition completions (trace : list Event) : nat :=
  List.length (filter (fun ev => match ev with EvCompletion => true | _ => false end)
                      (flat_map flatten trace)).

End Agent.

(* ================================================================== *)
(** ** Sample operations, services and tools *)
(* ================================================================== *)

Module Scenario.
Import PyStr ErrorHandler OpenAIService Agent.

(** An operation over its own call counter that always fails with an
    authentication error. *)
Definition rejected : Op nat string :=
  fun call_count =>
    (Raised (OtherException "Exception" "Authentication failed - invalid API key"),
     S call_count, []).

(** An operation over its own call counter that hits the rate limit on its first
    two calls and then succeeds. *)
Definition flaky_function : Op nat string :=
  fun call_count =>
    (if (call_count <? 2)%nat
     then Raised (OtherException "Exception" "Error 429: Rate limit exceeded")
     else Returned "Success!",
     S call_count, []).

(** Tools for the sample runs: [calculate_roi] answers, [forecast_sales] fails. *)
Definition roi_tool : Json -> outcome Dict :=
  fun _ => Returned [("roi_percentage", JNum 80)].
Definition failing_tool : Json -> outcome Dict :=
  fun _ => Raised (OtherException "ValueError" "periods must be positive").
Definition idle_tool : Json -> outcome Dict :=
  fun _ => Returned [].

Definition sample_loads : string -> option Json := fun _ => Some (JObj []).
Definition sample_dumps : Dict -> string := fun _ => "{}".

Definition stop_response (text : string) : OpenAIResponse :=
  mkOpenAIResponse text 0 "gpt-4" "stop" None.

Definition tool_calls_response : OpenAIResponse :=
  mkOpenAIResponse "" 0 "gpt-4" "tool_calls"
                   (Some [mkToolCall "call_1" "calculate_roi" "{}"]).

(** A completion service, its state being the number of requests served, that asks
    for a tool on its first [rounds] requests and then answers "Done". *)
Definition scripted_service (rounds : nat)
    : list ChatMessage -> nat -> outcome OpenAIResponse * nat :=
  fun _ served =>
    (Returned (if (served <? rounds)%nat then tool_calls_response
               else stop_response "Done"),
     S served).

(** [chat] with the sample tools. *)
Definition sample_chat (create : list ChatMessage -> nat -> outcome OpenAIResponse * nat)
    (self : DexterAgent) (user_message : string) : ChatRun nat :=
  chat create roi_tool failing_tool idle_tool idle_tool idle_tool idle_tool
       sample_loads sample_dumps self user_message 0%nat.

Definition fresh_agent : DexterAgent := mkDexterAgent [] "You are Dexter." 0.

End Scenario.

(* ================================================================== *)
(** ** Further code: message conversion and [lib/ai/tool_converter.py] *)
(* ================================================================== *)

Module Trace.
Import ErrorHandler.

(** Number of sleeps at the top of a trace. *)
Definition sleeps (tr : list Event) : nat :=
  List.length (filter (fun ev => match ev with EvSleep _ => true | _ => false end) tr).

Definition is_sleep (ev : Event) : bool :=
  match ev with EvSleep _ => true | _ => false end.

End Trace.

Module MessageConversion.
Import PyStr ErrorHandler OpenAIService Agent.

Definition role_str (r : Role) : string :=
  match r with
  | system => "system"
  | user => "user"
  | assistant => "assistant"
  | tool => "tool"
  end.

(** The dictionary that [chat] builds for a requested invocation before it stores
    it in the assistant message. *)
Definition tool_call_dict (tc : ToolCall) : Json :=
  JObj [("id", JStr (tc_id tc));
        ("type", JStr "function");
        ("function", JObj [("name", JStr (tc_name tc));
                           ("arguments", JStr (tc_arguments tc))])].

(** [if value:] on an optional string. *)
Definition truthy_str (value : option string) : option string :=
  match value with
  | Some s => if String.eqb s "" then None else Some s
  | None => None
  end.

(** [if value:] on an optional list. *)
Definition truthy_list {X : Type} (value : option (list X)) : option (list X) :=
  match value with
  | Some (x :: rest) => Some (x :: rest)
  | _ => None
  end.

(** The body of the loop of [_convert_messages]. *)
Definition convert_message (msg : ChatMessage) : Dict :=
  let message_dict :=
    [("role", JStr (role_str (role msg))); ("content", JStr (content msg))] in
  let message_dict :=
    match truthy_str (name msg) with
    | Some n => message_dict ++ [("name", JStr n)]
    | None => message_dict
    end in
  let message_dict :=
    match truthy_str (tool_call_id msg) with
    | Some i => message_dict ++ [("tool_call_id", JStr i)]
    | None => message_dict
    end in
  let message_dict :=
    match truthy_list (tool_calls msg) with
    | Some tcs => message_dict ++ [("tool_calls", JArr (map tool_call_dict tcs))]
    | None => message_dict
    end in
  message_dict.

Definition _convert_messages (messages : list ChatMessage) : list Dict :=
  map convert_message messages.

End MessageConversion.

Module ToolConverter.
Import PyStr ErrorHandler OpenAIService Agent.

(** [KeyError(key)], whose text is the representation of the key. *)
Definition KeyError (key : string) : PyException :=
  OtherException "KeyError" ("'" ++ key ++ "'")%string.

(** [d[key]], which raises [KeyError(key)] when the key is missing. *)
Definition dict_item (key : string) (d : Dict) : outcome Json :=
  match dict_get key d with
  | Some v => Returned v
  | None => Raised (KeyError key)
  end.

(** A tool definition that has the three keys read by the conversion. *)
Definition has_tool_keys (anthropic_tool : Dict) : bool :=
  dict_mem "name" anthropic_tool
  && dict_mem "description" anthropic_tool
  && dict_mem "input_schema" anthropic_tool.

Definition convert_anthropic_tool_to_openai (anthropic_tool : Dict) : outcome Dict :=
  match dict_item "name" anthropic_tool with
  | Raised e => Raised e
  | Returned tool_name =>
      match dict_item "description" anthropic_tool with
      | Raised e => Raised e
      | Returned description =>
          match dict_item "input_schema" anthropic_tool with
          | Raised e => Raised e
          | Returned input_schema =>
              Returned [("type", JStr "function");
                        ("function", JObj [("name", tool_name);
                                           ("description", description);
                                           ("parameters", input_schema)])]
          end
      end
  end.

(** [[convert_anthropic_tool_to_openai(tool) for tool in anthropic_tools]] *)
Fixpoint convert_tools_to_openai (anthropic_tools : list Dict) : outcome (list Dict) :=
  match anthropic_tools with
  | [] => Returned []
  | anthropic_tool :: rest =>
      match convert_anthropic_tool_to_openai anthropic_tool with
      | Raised e => Raised e
      | Returned converted =>
          match convert_tools_to_openai rest with
          | Raised e => Raised e
          | Returned others => Returned (converted :: others)
          end
      end
  end.

(** One entry of the catalogue in the format of function calling. *)
Definition function_tool (tool_name description : string) (parameters : Json) : Dict :=
  [("type", JStr "function");
   ("function", JObj [("name", JStr tool_name);
                      ("description", JStr description);
                      ("parameters", parameters)])].

(** [tool["function"]["name"]] *)
Definition function_name (openai_tool : Dict) : option string :=
  match dict_get "function" openai_tool with
  | Some (JObj function) =>
      match dict_get "name" function with
      | Some (JStr tool_name) => Some tool_name
      | _ => None
      end
  | _ => None
  end.

Section Catalogue.

(** The description texts and the parameter schemas of the six entries, which the
    source writes out as literals. *)
Variables roi_description forecast_description pnl_description
  balance_sheet_description cash_flow_description break_even_description : string.
Variables roi_parameters forecast_parameters pnl_parameters
  balance_sheet_parameters cash_flow_parameters break_even_parameters : Json.

Definition register_dexter_tools : list Dict :=
  let tools := [] in
  let tools := tools ++ [function_tool "calculate_roi" roi_description roi_parameters] in
  let tools :=
    tools ++ [function_tool "forecast_sales" forecast_description forecast_parameters] in
  let tools := tools ++ [function_tool "calculate_pnl" pnl_description pnl_parameters] in
  let tools :=
    tools ++ [function_tool "generate_balance_sheet" balance_sheet_description
                            balance_sheet_parameters] in
  let tools :=
    tools ++ [function_tool "generate_cash_flow_statement" cash_flow_description
                            cash_flow_parameters] in
  let tools :=
    tools ++ [function_tool "analyze_break_even" break_even_description
                            break_even_parameters] in
  tools.

End Catalogue.

End ToolConverter.

(* ================================================================== *)
(** ** Views of a turn *)
(* ================================================================== *)

Module Turn.
Import PyStr ErrorHandler OpenAIService Agent.

(** The transcript with which [chat] enters its loop: the history, seeded with the
    system prompt when it is empty, followed by the user message. *)
Definition opening (self : DexterAgent) (user_message : string) : list ChatMessage :=
  match conversation_history self with
  | [] => [mkChatMessage system (system_prompt self) None None None]
  | first :: others => first :: others
  end ++ [mkChatMessage user user_message None None None].

(** The exception that [generate_response] raises for a failure of the service. *)
Definition service_error (e : PyException) : PyException :=
  OtherException "OpenAIServiceError" ("Fehler bei OpenAI API Call: " ++ py_str e)%string.

End Turn.

(* ================================================================== *)
(** ** More sample operations and services *)
(* ================================================================== *)

Module MoreScenarios.
Import PyStr ErrorHandler OpenAIService Agent Scenario.

(** An operation over its own call counter that never gets through. *)
Definition always_unavailable : Op nat string :=
  fun call_count =>
    (Raised (OtherException "Exception" "Service temporarily unavailable"),
     S call_count, []).

(** A completion service that replays a script, one entry per request; its state
    is the number of requests served. *)
Definition replay (script : list (outcome OpenAIResponse))
    : list ChatMessage -> nat -> outcome OpenAIResponse * nat :=
  fun _ served => (nth served script (Returned (stop_response "")), S served).

End MoreScenarios.

(* ================================================================== *)
(** * Properties *)
(* ================================================================== *)

Import PyStr ErrorHandler OpenAIService Agent Scenario.

(* ------------------------------------------------------------------ *)
(** ** Substring tests *)

Lemma startswith_spec needle hay :
  startswith needle hay = true <-> exists post, hay = (needle ++ post)%string.
Proof.
  revert hay; induction needle as [|a n IH]; intros hay; simpl.
  - split; [intros _; now exists hay | reflexivity].
  - destruct hay as [|b h].
    + split; [discriminate | intros [post H]; discriminate].
    + rewrite andb_true_iff, Ascii.eqb_eq, IH. split.
      * intros [-> [post ->]]. now exists post.
      * intros [post H]. injection H as -> ->. split; [reflexivity | now exists post].
Qed.

Lemma contains_spec needle hay :
  contains needle hay = true <-> Substring needle hay.
Proof.
  unfold Substring. induction hay as [|b h IH]; simpl.
  - rewrite orb_false_r, startswith_spec. split.
    + intros [post H]. now exists "", post.
    + intros [pre [post H]]. destruct pre; simpl in H.
      * now exists post.
      * discriminate.
  - rewrite orb_true_iff, startswith_spec, IH. split.
    + intros [[post H] | [pre [post H]]].
      * now exists "", post.
      * exists (String b pre), post. simpl. now rewrite H.
    + intros [pre [post H]]. destruct pre as [|c pre]; simpl in H.
      * left. now exists post.
      * right. injection H as _ H. now exists pre, post.
Qed.

Lemma contains_false needle hay :
  contains needle hay = false <-> ~ Substring needle hay.
Proof.
  rewrite <- contains_spec. destruct (contains needle hay); split; intros; congruence.
Qed.

Lemma append_assoc (a b c : string) : ((a ++ b) ++ c = a ++ (b ++ c))%string.
Proof. induction a; simpl; congruence. Qed.

Lemma append_empty_r (a : string) : (a ++ "")%string = a.
Proof. induction a; simpl; congruence. Qed.

(** A substring of a substring is a substring. *)
Lemma Substring_trans a b c : Substring a b -> Substring b c -> Substring a c.
Proof.
  intros [p1 [q1 ->]] [p2 [q2 ->]].
  exists (p2 ++ p1)%string, (q1 ++ q2)%string. now rewrite !append_assoc.
Qed.

Lemma replicate_length n c : String.length (replicate n c) = n.
Proof. induction n; simpl; congruence. Qed.

(** Deciding a marker test on a closed string. *)
Ltac decide_substring :=
  match goal with
  | |- Substring _ _ => apply contains_spec; vm_compute; reflexivity
  | |- ~ Substring _ _ => apply contains_false; vm_compute; reflexivity
  | |- ?P -> False => change (~ P); decide_substring
  | |- _ \/ _ => (left; decide_substring) || (right; decide_substring)
  | |- ~ (_ \/ _) =>
      let H := fresh in intros [H | H]; revert H; decide_substring
  | |- rate_limit_marker _ => unfold rate_limit_marker; decide_substring
  | |- authentication_marker _ => unfold authentication_marker; decide_substring
  | |- invalid_request_marker _ => unfold invalid_request_marker; decide_substring
  | |- unavailable_marker _ => unfold unavailable_marker; decide_substring
  | |- context_length_marker _ => unfold context_length_marker; decide_substring
  | |- ~ rate_limit_marker _ => unfold rate_limit_marker; decide_substring
  | |- ~ authentication_marker _ => unfold authentication_marker; decide_substring
  | |- ~ invalid_request_marker _ => unfold invalid_request_marker; decide_substring
  | |- ~ unavailable_marker _ => unfold unavailable_marker; decide_substring
  | |- ~ context_length_marker _ => unfold context_length_marker; decide_substring
  end.

(* ------------------------------------------------------------------ *)
(** ** Error classification *)

(** Turns every marker test of the goal into its declarative reading. *)
Ltac split_markers s :=
  repeat match goal with
         | |- context [contains ?m s] =>
             let E := fresh "E" in
             destruct (contains m s) eqn:E;
             [apply contains_spec in E | apply contains_false in E];
             cbn [orb negb]
         end.

Ltac classify_branch :=
  intros error; unfold classify_error;
  unfold rate_limit_marker, authentication_marker, invalid_request_marker,
         unavailable_marker, context_length_marker;
  set (s := lower (py_str error));
  split_markers s; intros; first [reflexivity | exfalso; tauto].

Lemma classify_rate_limit :
  forall error, rate_limit_marker (lower (py_str error)) ->
    classify_error error = RateLimitError (py_str error) 60.
Proof. classify_branch. Qed.

Lemma classify_authentication :
  forall error,
    ~ rate_limit_marker (lower (py_str error)) ->
    authentication_marker (lower (py_str error)) ->
    classify_error error = AuthenticationError (py_str error).
Proof. classify_branch. Qed.

Lemma classify_invalid_request :
  forall error,
    ~ rate_limit_marker (lower (py_str error)) ->
    ~ authentication_marker (lower (py_str error)) ->
    invalid_request_marker (lower (py_str error)) ->
    classify_error error = InvalidRequestError (py_str error).
Proof. classify_branch. Qed.

Lemma classify_unavailable :
  forall error,
    ~ rate_limit_marker (lower (py_str error)) ->
    ~ authentication_marker (lower (py_str error)) ->
    ~ invalid_request_marker (lower (py_str error)) ->
    unavailable_marker (lower (py_str error)) ->
    classify_error error = ServiceUnavailableError (py_str error).
Proof. classify_branch. Qed.

Lemma classify_context_length :
  forall error,
    ~ rate_limit_marker (lower (py_str error)) ->
    ~ authentication_marker (lower (py_str error)) ->
    ~ invalid_request_marker (lower (py_str error)) ->
    ~ unavailable_marker (lower (py_str error)) ->
    context_length_marker (lower (py_str error)) ->
    classify_error error = ContextLengthExceededError (py_str error).
Proof. classify_branch. Qed.

Lemma classify_unknown :
  forall error,
    ~ rate_limit_marker (lower (py_str error)) ->
    ~ authentication_marker (lower (py_str error)) ->
    ~ invalid_request_marker (lower (py_str error)) ->
    ~ unavailable_marker (lower (py_str error)) ->
    ~ context_length_marker (lower (py_str error)) ->
    classify_error error = OpenAIError_init (py_str error) None true None.
Proof. classify_branch. Qed.

(** C3.  [classify_error] tests the marker groups on the lower-cased text of the
    error as substrings, in the order rate limit, authentication, invalid request,
    service unavailable, context length; the first group that matches decides the
    class, and no match gives the base class.  The resulting error is: rate limited
    (status 429, retryable, retry_after 60), authentication failed (401, not
    retryable), invalid request (400, not retryable), service unavailable (503,
    retryable, retry_after 30), context too long (400, not retryable), unknown
    (retryable, no retry_after).  The message is always the original text. *)
Theorem classify_error_first_match :
  forall error : PyException,
    let s := lower (py_str error) in
    let msg := py_str error in
    (rate_limit_marker s ->
       classify_error error = mkOpenAIError CRateLimitError msg (Some 429) true (Some 60))
    /\ (~ rate_limit_marker s -> authentication_marker s ->
       classify_error error = mkOpenAIError CAuthenticationError msg (Some 401) false None)
    /\ (~ rate_limit_marker s -> ~ authentication_marker s ->
        invalid_request_marker s ->
       classify_error error = mkOpenAIError CInvalidRequestError msg (Some 400) false None)
    /\ (~ rate_limit_marker s -> ~ authentication_marker s ->
        ~ invalid_request_marker s -> unavailable_marker s ->
       classify_error error =
         mkOpenAIError CServiceUnavailableError msg (Some 503) true (Some 30))
    /\ (~ rate_limit_marker s -> ~ authentication_marker s ->
        ~ invalid_request_marker s -> ~ unavailable_marker s ->
        context_length_marker s ->
       classify_error error =
         mkOpenAIError CContextLengthExceededError msg (Some 400) false None)
    /\ (~ rate_limit_marker s -> ~ authentication_marker s ->
        ~ invalid_request_marker s -> ~ unavailable_marker s ->
        ~ context_length_marker s ->
       classify_error error = mkOpenAIError COpenAIError msg None true None).
Proof.
  intros error s msg. subst s msg. repeat split.
  - apply classify_rate_limit.
  - apply classify_authentication.
  - apply classify_invalid_request.
  - apply classify_unavailable.
  - apply classify_context_length.
  - apply classify_unknown.
Qed.

(** A text with markers of four groups is rate limited; one with markers of the
    last three groups only is an invalid request; one without markers is unknown. *)
Lemma classify_error_first_match_witness :
  classify_error
    (OtherException "Exception" "HTTP 429 Rate Limit: invalid API key, timeout")
  = mkOpenAIError CRateLimitError "HTTP 429 Rate Limit: invalid API key, timeout"
                  (Some 429) true (Some 60)
  /\ classify_error
       (OtherException "Exception" "Invalid request: token limit hit, Timeout")
     = mkOpenAIError CInvalidRequestError "Invalid request: token limit hit, Timeout"
                     (Some 400) false None
  /\ classify_error (OtherException "Exception" "Connection reset by peer")
     = mkOpenAIError COpenAIError "Connection reset by peer" None true None.
Proof.
  split; [| split].
  - apply (proj1 (classify_error_first_match
      (OtherException "Exception" "HTTP 429 Rate Limit: invalid API key, timeout"))).
    decide_substring.
  - apply (proj1 (proj2 (proj2 (classify_error_first_match
      (OtherException "Exception" "Invalid request: token limit hit, Timeout")))));
      decide_substring.
  - apply (proj2 (proj2 (proj2 (proj2 (proj2 (classify_error_first_match
      (OtherException "Exception" "Connection reset by peer")))))));
      decide_substring.
Defined.

(** C8, as stated, fails: a text with "401" and "invalid api key" that also holds
    "429" is classified as rate limited and is retryable. *)
Lemma classify_error_401_not_always_authentication :
  let error :=
    OtherException "Exception" "Error 401: invalid api key (request 4290)" in
  (Substring "401" (lower (py_str error))
   /\ Substring "invalid api key" (lower (py_str error)))
  /\ ~ (err_class (classify_error error) = CAuthenticationError
        /\ retryable (classify_error error) = false).
Proof.
  cbv zeta. split; [split; decide_substring |].
  vm_compute. intros [H _]. discriminate H.
Qed.

(** C8, amended.  For every error text which, lower-cased, contains "401" or
    "invalid api key" and contains neither "rate limit" nor "429",
    [classify_error] returns an authentication error, which is not retryable. *)
Theorem classify_error_authentication_failed :
  forall error : PyException,
    let s := lower (py_str error) in
    Substring "401" s \/ Substring "invalid api key" s ->
    ~ Substring "rate limit" s -> ~ Substring "429" s ->
    classify_error error = AuthenticationError (py_str error)
    /\ err_class (classify_error error) = CAuthenticationError
    /\ retryable (classify_error error) = false.
Proof.
  intros error s H Hrl H429.
  assert (E : classify_error error = AuthenticationError (py_str error)).
  { apply classify_authentication.
    - intros [R | R]; [apply Hrl | apply H429]; exact R.
    - destruct H as [H | H].
      + right; left; exact H.
      + right; right. apply (Substring_trans "api key" "invalid api key" s).
        * decide_substring.
        * exact H. }
  rewrite E. repeat split.
Qed.

Lemma classify_error_authentication_failed_witness :
  classify_error (OtherException "Exception" "Error 401: Invalid API key provided")
  = AuthenticationError "Error 401: Invalid API key provided"
  /\ err_class
       (classify_error (OtherException "Exception" "Error 401: Invalid API key provided"))
     = CAuthenticationError
  /\ retryable
       (classify_error (OtherException "Exception" "Error 401: Invalid API key provided"))
     = false.
Proof.
  apply (classify_error_authentication_failed
           (OtherException "Exception" "Error 401: Invalid API key provided"));
    decide_substring.
Defined.

(* ------------------------------------------------------------------ *)
(** ** Token estimate *)

Lemma len_nonneg (text : string) : 0 <= len text.
Proof. unfold len; lia. Qed.

Lemma estimate_tokens_pos (text : string) : 1 <= estimate_tokens text.
Proof. unfold estimate_tokens; lia. Qed.

(** C7, as stated, fails: a text of five characters is estimated at one token,
    while the ceiling of 5/4 is two. *)
Lemma estimate_tokens_not_ceiling :
  ~ (exists c, is_ceil_quarter (len "hello") c
               /\ estimate_tokens "hello" = Z.max 1 c).
Proof.
  intros [c [Hc E]]. unfold is_ceil_quarter in Hc.
  change (len "hello") with 5 in Hc. change (estimate_tokens "hello") with 1 in E.
  lia.
Qed.

(** C7, amended.  For every text, the token estimator returns
    max(1, floor(character_length / 4)): the length divided by four and rounded
    down, with a minimum of 1. *)
Theorem estimate_tokens_floor :
  forall text : string,
    exists q, is_floor_quarter (len text) q /\ estimate_tokens text = Z.max 1 q.
Proof.
  intros text. exists (len text / 4). split; [| reflexivity].
  unfold is_floor_quarter. pose proof (Z.div_mod (len text) 4 ltac:(lia)) as D.
  pose proof (Z.mod_pos_bound (len text) 4 ltac:(lia)) as B. lia.
Qed.

(* ------------------------------------------------------------------ *)
(** ** History trimming *)

Lemma sum_tokens_app (a b : list ChatMessage) :
  sum_tokens (a ++ b) = sum_tokens a + sum_tokens b.
Proof. induction a as [|m a IH]; simpl; [reflexivity | rewrite IH; lia]. Qed.

Lemma sum_tokens_rev (l : list ChatMessage) : sum_tokens (rev l) = sum_tokens l.
Proof.
  induction l as [|m l IH]; simpl; [reflexivity |].
  rewrite sum_tokens_app, IH. simpl. lia.
Qed.

Lemma not_system (m : ChatMessage) : role m <> system -> is_system (role m) = false.
Proof. destruct (role m); [contradiction | reflexivity ..]. Qed.

(** The backward walk takes the longest run of messages whose running total fits. *)
Lemma trim_walk_takes_prefix :
  forall (l : list ChatMessage) (remaining current : Z) (acc : list ChatMessage),
    exists k : nat,
      (k <= List.length l)%nat
      /\ trim_walk l remaining current acc = rev (firstn k l) ++ acc
      /\ (k <> O -> current + sum_tokens (firstn k l) <= remaining)
      /\ (forall m, nth_error l k = Some m ->
            current + sum_tokens (firstn k l) + estimate_tokens (content m) > remaining).
Proof.
  induction l as [|m l IH]; intros remaining current acc.
  - exists O. simpl. repeat split; try lia. intros m H; discriminate H.
  - simpl. destruct (current + estimate_tokens (content m) >? remaining) eqn:E.
    + exists O. simpl. repeat split; try lia.
      intros m' H. injection H as <-. lia.
    + destruct (IH remaining (current + estimate_tokens (content m)) (m :: acc))
        as [k [Hk [Hw [Hfit Hnext]]]].
      exists (S k). simpl. repeat split.
      * lia.
      * rewrite Hw, <- app_assoc. reflexivity.
      * intros _. destruct k as [|k].
        -- simpl. lia.
        -- specialize (Hfit ltac:(lia)). lia.
      * intros m' H. specialize (Hnext m' H). lia.
Qed.

(** C6.  [trim_conversation_history] returns every system message, in the original
    order, followed by a suffix of the non-system messages in the original order.
    With the budget that remains after the estimated tokens of the system messages,
    that suffix is what a walk from the most recent message backwards keeps while
    the running total fits: a non-empty suffix fits in the remaining budget, and the
    message just before it, if any, would exceed it.  In particular, one system
    message estimated at 50 tokens, a budget of 100 and five non-system messages
    estimated at 30 tokens each give the system message and the last message. *)
Theorem trim_conversation_history_keeps_recent :
  (forall (messages : list ChatMessage) (max_tokens : Z),
     let system_messages := filter (fun m => is_system (role m)) messages in
     let other_messages := filter (fun m => negb (is_system (role m))) messages in
     let remaining := max_tokens - sum_tokens system_messages in
     exists n : nat,
       (n <= List.length other_messages)%nat
       /\ trim_conversation_history messages max_tokens
          = system_messages ++ skipn n other_messages
       /\ (skipn n other_messages <> [] ->
           sum_tokens (skipn n other_messages) <= remaining)
       /\ (forall m, (0 < n)%nat -> nth_error other_messages (n - 1) = Some m ->
             sum_tokens (skipn n other_messages) + estimate_tokens (content m)
             > remaining))
  /\ (forall s m1 m2 m3 m4 m5 : ChatMessage,
        role s = system -> estimate_tokens (content s) = 50 ->
        Forall (fun m => role m <> system /\ estimate_tokens (content m) = 30)
               [m1; m2; m3; m4; m5] ->
        trim_conversation_history [s; m1; m2; m3; m4; m5] 100 = [s; m5]).
Proof.
  split.
  - intros messages max_tokens system_messages other_messages remaining.
    destruct (trim_walk_takes_prefix (rev other_messages) remaining 0 [])
      as [k [Hk [Hw [Hfit Hnext]]]].
    rewrite length_rev in Hk.
    assert (Hkeep : rev (firstn k (rev other_messages))
                    = skipn (List.length other_messages - k) other_messages).
    { rewrite firstn_rev, rev_involutive. reflexivity. }
    assert (Hsum : sum_tokens (firstn k (rev other_messages))
                   = sum_tokens (skipn (List.length other_messages - k) other_messages)).
    { rewrite <- Hkeep, sum_tokens_rev. reflexivity. }
    exists (List.length other_messages - k)%nat. repeat split.
    + lia.
    + unfold trim_conversation_history. fold system_messages other_messages remaining.
      rewrite Hw, app_nil_r, Hkeep. reflexivity.
    + intros Hne. rewrite <- Hsum.
      assert (k <> O).
      { intros ->. apply Hne. rewrite Nat.sub_0_r. apply skipn_all. }
      specialize (Hfit H). lia.
    + intros m Hpos Hm. rewrite <- Hsum.
      assert (Hr : nth_error (rev other_messages) k = Some m).
      { rewrite nth_error_rev.
        replace (k <? List.length other_messages)%nat with true
          by (symmetry; apply Nat.ltb_lt; lia).
        rewrite <- Hm. f_equal. lia. }
      specialize (Hnext m Hr). lia.
  - intros s m1 m2 m3 m4 m5 Hs Hts Hall.
    repeat match goal with
           | H : Forall _ (_ :: _) |- _ => inversion H; clear H; subst
           | H : _ /\ _ |- _ => destruct H
           | H : role ?m <> system |- _ => apply not_system in H
           end.
    unfold trim_conversation_history. cbn [filter]. rewrite Hs.
    repeat match goal with
           | H : is_system (role _) = false |- _ => rewrite H; clear H
           end.
    cbn [is_system negb rev app sum_tokens fold_right trim_walk content].
    rewrite Hts.
    repeat match goal with
           | H : estimate_tokens (content _) = 30 |- _ => rewrite H; clear H
           end.
    reflexivity.
Qed.

Lemma trim_conversation_history_keeps_recent_witness :
  let long n c := mkChatMessage user (replicate n c) None None None in
  let s := mkChatMessage system (replicate 200%nat "S"%char) None None None in
  trim_conversation_history
    [s; long 120%nat "a"%char; long 120%nat "b"%char; long 120%nat "c"%char; long 120%nat "d"%char;
     long 120%nat "e"%char] 100
  = [s; long 120%nat "e"%char].
Proof.
  cbv zeta.
  apply (proj2 trim_conversation_history_keeps_recent).
  - reflexivity.
  - vm_compute. reflexivity.
  - repeat constructor; try discriminate; vm_compute; reflexivity.
Defined.

(* ------------------------------------------------------------------ *)
(** ** Bounded retry *)

Lemma py_range_succ (n : Z) :
  0 <= n -> py_range (n + 1) = map Z.of_nat (seq 0 (S (Z.to_nat n))).
Proof.
  intros H. unfold py_range. rewrite Z2Nat.inj_add by lia.
  rewrite Nat.add_1_r. reflexivity.
Qed.

Section RetryFacts.
Context {St A : Type}.
Variable func : Op St A.
Variable max_retries : Z.
Variable base_delay : Q.
Variable exponential_backoff : bool.

(** A run of retryable failures followed by a success, inside the attempt budget. *)
Lemma retry_loop_succeeds_after (k : nat) :
  forall (a n : nat) (last : option PyException) (s : St) (v : A),
    (k < n)%nat ->
    Z.of_nat (a + k) <= max_retries ->
    (forall i, (i < k)%nat ->
       exists e, outcome_at func i s = Raised e /\ retryable (classify_error e) = true) ->
    outcome_at func k s = Returned v ->
    exists tr,
      retry_loop func max_retries base_delay exponential_backoff
                 (map Z.of_nat (seq a n)) last s
      = (Returned v, state_after func (S k) s, tr)
      /\ calls tr = S k.
Proof.
  induction k as [|k IH]; intros a n last s v Hn Ha Hfail Hok.
  - destruct n as [|n]; [lia |]. cbn [seq map retry_loop].
    unfold outcome_at in Hok. cbn [state_after] in *.
    destruct (func s) as [[r s1] inner]. cbn [fst snd] in *. subst r.
    eexists. split; reflexivity.
  - destruct n as [|n]; [lia |]. cbn [seq map retry_loop].
    destruct (Hfail O ltac:(lia)) as [e [He Hr]].
    unfold outcome_at in He. cbn [state_after] in He.
    assert (Hshift : forall i, outcome_at func (S i) s
                               = outcome_at func i (snd (fst (func s)))) by reflexivity.
    assert (Hstate : forall i, state_after func (S i) s
                               = state_after func i (snd (fst (func s)))) by reflexivity.
    destruct (func s) as [[r s1] inner]. cbn [fst snd] in *. subst r.
    rewrite Hr. cbn [negb].
    replace (Z.of_nat a >=? max_retries) with false
      by (symmetry; rewrite Z.geb_leb; apply Z.leb_gt; lia).
    destruct (IH (S a) n (Some e) s1 v) as [tr [Htr Hcalls]].
    + lia.
    + lia.
    + intros i Hi. rewrite <- Hshift. apply Hfail. lia.
    + rewrite <- Hshift. exact Hok.
    + rewrite Htr. rewrite (Hstate (S k)). eexists. split; [reflexivity |].
      unfold calls in *. cbn [filter List.length]. rewrite Hcalls. reflexivity.
Qed.

End RetryFacts.

(** C4.  For every [max_retries >= 0] and every operation that always raises an
    error classified as not retryable, [with_retry] invokes the operation exactly
    once (attempt 0, no sleep) and raises the classified error of that failure. *)
Theorem with_retry_fails_fast :
  forall (St A : Type) (func : Op St A) (max_retries : Z) (base_delay : Q)
         (exponential_backoff : bool) (s : St),
    0 <= max_retries ->
    (forall s' : St, exists e,
        fst (fst (func s')) = Raised e /\ retryable (classify_error e) = false) ->
    exists e inner,
      func s = (Raised e, state_after func 1 s, inner)
      /\ with_retry func max_retries base_delay exponential_backoff s
         = (Raised (OpenAIErr (classify_error e)), state_after func 1 s,
            [EvCall 0 inner])
      /\ calls [EvCall 0 inner] = 1%nat.
Proof.
  intros St A func max_retries base_delay exponential_backoff s Hmax Hfail.
  destruct (Hfail s) as [e [He Hr]].
  unfold with_retry. rewrite py_range_succ by exact Hmax.
  cbn [seq map retry_loop state_after].
  destruct (func s) as [[r s1] inner]. cbn [fst snd] in *. subst r.
  exists e, inner. rewrite Hr. cbn [negb]. repeat split.
Qed.

Lemma with_retry_fails_fast_witness :
  exists e inner,
    rejected 0%nat = (Raised e, state_after rejected 1 0%nat, inner)
    /\ with_retry rejected 5 1 true 0%nat
       = (Raised (OpenAIErr (classify_error e)), state_after rejected 1 0%nat,
          [EvCall 0 inner])
    /\ calls [EvCall 0 inner] = 1%nat.
Proof.
  apply (with_retry_fails_fast nat string rejected 5 1 true 0%nat).
  - lia.
  - intros s'. eexists. split; [reflexivity | vm_compute; reflexivity].
Defined.

(** C5.  For every [k < max_retries] and every operation that raises an error
    classified as retryable on each of its first [k] calls and returns [v] on the
    next one, [with_retry] returns [v] and the operation is invoked exactly [k + 1]
    times. *)
Theorem with_retry_recovers :
  forall (St A : Type) (func : Op St A) (max_retries : Z) (base_delay : Q)
         (exponential_backoff : bool) (s : St) (k : nat) (v : A),
    Z.of_nat k < max_retries ->
    (forall i, (i < k)%nat ->
       exists e, outcome_at func i s = Raised e /\ retryable (classify_error e) = true) ->
    outcome_at func k s = Returned v ->
    exists tr,
      with_retry func max_retries base_delay exponential_backoff s
      = (Returned v, state_after func (k + 1) s, tr)
      /\ calls tr = (k + 1)%nat.
Proof.
  intros St A func max_retries base_delay exponential_backoff s k v Hk Hfail Hok.
  unfold with_retry. rewrite py_range_succ by lia.
  rewrite Nat.add_1_r.
  apply retry_loop_succeeds_after; try assumption; lia.
Qed.

Lemma with_retry_recovers_witness :
  exists tr,
    with_retry flaky_function 3 1 true 0%nat
    = (Returned "Success!", state_after flaky_function (2 + 1) 0%nat, tr)
    /\ calls tr = (2 + 1)%nat.
Proof.
  apply (with_retry_recovers nat string flaky_function 3 1 true 0%nat 2%nat "Success!").
  - lia.
  - intros i Hi. destruct i as [|[|i]]; [| | lia];
      (eexists; split; [reflexivity | vm_compute; reflexivity]).
  - reflexivity.
Defined.

(* ------------------------------------------------------------------ *)
(** ** Tool dispatch *)

(** C9.  For every tool name and decoded arguments, [_execute_tool] returns a
    dictionary and never raises.  If the name is not in the registry, the result is
    the error payload with the keys "error" and "tool_name" only, whose error text
    is not empty and mentions the unknown tool.  If the handler found for the name
    raises, the result is the error payload with the text of the exception and the
    name of the tool.  If the handler returns, its value is the result, unchanged. *)
Theorem execute_tool_never_raises :
  forall (calculate_roi forecast_sales calculate_pnl generate_balance_sheet
          generate_cash_flow_statement analyze_break_even : Json -> outcome Dict)
         (tool_name : string) (tool_input : Json),
    let dispatch :=
      _execute_tool calculate_roi forecast_sales calculate_pnl generate_balance_sheet
                    generate_cash_flow_statement analyze_break_even in
    let lookup :=
      lookup_tool calculate_roi forecast_sales calculate_pnl generate_balance_sheet
                  generate_cash_flow_statement analyze_break_even in
    (exists result, dispatch tool_name tool_input = Returned result)
    /\ (lookup tool_name = None ->
        exists msg,
          dispatch tool_name tool_input
          = Returned [("error", JStr msg); ("tool_name", JStr tool_name)]
          /\ msg <> "" /\ Substring "Unknown tool" msg /\ Substring tool_name msg)
    /\ (forall handler e,
          lookup tool_name = Some handler -> handler tool_input = Raised e ->
          dispatch tool_name tool_input
          = Returned [("error", JStr (py_str e)); ("tool_name", JStr tool_name)])
    /\ (forall handler result,
          lookup tool_name = Some handler -> handler tool_input = Returned result ->
          dispatch tool_name tool_input = Returned result).
Proof.
  intros h1 h2 h3 h4 h5 h6 tool_name tool_input dispatch lookup.
  subst dispatch lookup. unfold _execute_tool, lookup_tool, registry.
  cbn [find fst snd option_map].
  repeat match goal with
         | |- context [String.eqb tool_name ?k] =>
             destruct (String.eqb tool_name k); cbn [option_map snd]
         end.
  all: repeat split.
  all: try (intros H; discriminate H).
  all: try (intros handler x H Hx; injection H as <-; rewrite Hx; reflexivity).
  all: try (intros handler x H Hx; discriminate H).
  all: try match goal with
           | |- exists _, match ?h ?x with _ => _ end = _ =>
               destruct (h x); eexists; reflexivity
           end.
  - eexists; reflexivity.
  - intros _. eexists. split; [reflexivity |]. split; [discriminate |].
    split.
    + exists "", (": " ++ tool_name)%string. reflexivity.
    + exists "Unknown tool: ", "". rewrite append_empty_r. reflexivity.
Qed.

Lemma execute_tool_never_raises_witness :
  let dispatch :=
    _execute_tool roi_tool failing_tool idle_tool idle_tool idle_tool idle_tool in
  (exists msg,
     dispatch "unknown_tool" (JObj [])
     = Returned [("error", JStr msg); ("tool_name", JStr "unknown_tool")]
     /\ msg <> "" /\ Substring "Unknown tool" msg /\ Substring "unknown_tool" msg)
  /\ dispatch "forecast_sales" (JObj [])
     = Returned [("error", JStr "periods must be positive");
                 ("tool_name", JStr "forecast_sales")]
  /\ dispatch "calculate_roi" (JObj []) = Returned [("roi_percentage", JNum 80)].
Proof.
  pose proof (execute_tool_never_raises
                roi_tool failing_tool idle_tool idle_tool idle_tool idle_tool) as T.
  cbv zeta in *. split; [| split].
  - apply (proj1 (proj2 (T "unknown_tool" (JObj [])))). reflexivity.
  - apply (proj1 (proj2 (proj2 (T "forecast_sales" (JObj [])))) failing_tool
                 (OtherException "ValueError" "periods must be positive"));
      reflexivity.
  - apply (proj2 (proj2 (proj2 (T "calculate_roi" (JObj [])))) roi_tool); reflexivity.
Defined.

(* ------------------------------------------------------------------ *)
(** ** Rate limiter *)

Lemma filter_length_le {X : Type} (p : X -> bool) (l : list X) :
  (List.length (filter p l) <= List.length l)%nat.
Proof.
  induction l as [|x l IH]; simpl; [lia |]. destruct (p x); simpl; lia.
Qed.

Lemma filter_incl {X : Type} (p : X -> bool) (l : list X) : incl (filter p l) l.
Proof. intros x Hx. apply filter_In in Hx. tauto. Qed.

(** With [max_requests >= 1], enough fuel for the timestamps still inside the
    window makes [acquire] return after recording a timestamp. *)
Lemma acquire_returns (fuel : nat) :
  forall (late : nat -> nat) (self : RateLimiter) (now : Z),
    1 <= max_requests self ->
    (List.length (filter (fun ts => ts >? now - time_window self) (requests self))
     < fuel)%nat ->
    exists now' kept tr,
      acquire fuel late self now
      = Some (Returned tt, set_requests self (kept ++ [now']), tr)
      /\ now <= now' /\ incl kept (requests self).
Proof.
  induction fuel as [|fuel IH]; intros late self now Hmax Hfuel; [lia |].
  cbn [acquire]. cbn [set_requests requests max_requests time_window].
  set (reqs := filter (fun ts => ts >? now - time_window self) (requests self)) in *.
  assert (Hincl : incl reqs (requests self)) by apply filter_incl.
  assert (Hreg : exists now' kept tr,
             Some (Returned tt,
                   mkRateLimiter (max_requests self) (time_window self) (reqs ++ [now]),
                   [EvGrant now])
             = Some (Returned tt, set_requests self (kept ++ [now']), tr)
             /\ now <= now' /\ incl kept (requests self)).
  { exists now, reqs, [EvGrant now]. repeat split; [lia | exact Hincl]. }
  destruct (Z.of_nat (List.length reqs) >=? max_requests self) eqn:Hfull;
    [| exact Hreg].
  destruct reqs as [|oldest rest] eqn:Hreqs.
  - rewrite Z.geb_leb in Hfull. apply Z.leb_le in Hfull. simpl in Hfull. lia.
  - destruct (time_window self - (now - oldest) >? 0) eqn:Hwait; [| exact Hreg].
    set (self1 := mkRateLimiter (max_requests self) (time_window self) (oldest :: rest)).
    set (now1 := now + (time_window self - (now - oldest)) + Z.of_nat (late O)).
    destruct (IH (fun i => late (S i)) self1 now1) as [now' [kept [tr [Hrun [Hle Hk]]]]].
    + exact Hmax.
    + subst self1. cbn [requests time_window filter].
      replace (oldest >? now1 - time_window self) with false
        by (symmetry; rewrite Z.gtb_ltb; apply Z.ltb_ge; subst now1; lia).
      pose proof (filter_length_le (fun ts => ts >? now1 - time_window self) rest).
      simpl in Hfuel. lia.
    + change (set_requests self (oldest :: rest)) with self1. rewrite Hrun.
      exists now', kept, (EvSleep (inject_Z (time_window self - (now - oldest))) :: tr).
      repeat split.
      * apply Z.gtb_lt in Hwait. subst now1. lia.
      * intros x Hx. apply Hincl. apply Hk. exact Hx.
Qed.

(** C10.  For every limiter with [max_requests >= 1], whatever its timestamps, the
    clock reading and the lateness of the sleeps, [acquire] terminates (any fuel
    above the number of stored timestamps is enough), returns normally, and leaves
    a timestamp list that ends with the clock reading it recorded; it raises no
    index error.  For a limiter built with [max_requests = 0], the first [acquire]
    raises the index error of reading the first element of an empty list. *)
Theorem acquire_total_iff_positive_limit :
  (forall (max_requests time_window : Z) (requests : list Z) (now : Z)
          (late : nat -> nat) (fuel : nat),
      1 <= max_requests ->
      (List.length requests < fuel)%nat ->
      exists now' kept tr,
        acquire fuel late (mkRateLimiter max_requests time_window requests) now
        = Some (Returned tt,
                mkRateLimiter max_requests time_window (kept ++ [now']), tr)
        /\ now <= now' /\ incl kept requests)
  /\ (forall (time_window now : Z) (late : nat -> nat) (fuel : nat),
        acquire (S fuel) late (RateLimiter_init 0 time_window) now
        = Some (Raised IndexError, RateLimiter_init 0 time_window, [])).
Proof.
  split.
  - intros max_requests time_window requests now late fuel Hmax Hfuel.
    apply (acquire_returns fuel late
             (mkRateLimiter max_requests time_window requests) now).
    + exact Hmax.
    + cbn [ErrorHandler.requests ErrorHandler.time_window].
      pose proof (filter_length_le (fun ts => ts >? now - time_window) requests). lia.
  - intros time_window now late fuel. reflexivity.
Qed.

(** Three requests per 10 ticks: the fourth call at tick 3 waits for the request
    of tick 0 to leave the window and is recorded at tick 10. *)
Lemma acquire_total_iff_positive_limit_witness :
  exists now' kept tr,
    acquire 4 (fun _ => O) (mkRateLimiter 3 10 [0; 1; 2]) 3
    = Some (Returned tt, mkRateLimiter 3 10 (kept ++ [now']), tr)
    /\ 3 <= now' /\ incl kept [0; 1; 2].
Proof.
  apply (proj1 acquire_total_iff_positive_limit 3 10 [0; 1; 2] 3 (fun _ => O) 4%nat).
  - lia.
  - simpl. lia.
Defined.

Example acquire_sliding_window :
  acquire 4 (fun _ => O) (mkRateLimiter 3 10 [0; 1; 2]) 3
  = Some (Returned tt, mkRateLimiter 3 10 [1; 2; 10],
          [EvSleep (inject_Z 7); EvGrant 10]).
Proof. reflexivity. Qed.

(* ------------------------------------------------------------------ *)
(** ** The conversation driver *)

Section DriverFacts.
Context {Svc : Type}.
Variable create : list ChatMessage -> Svc -> outcome OpenAIResponse * Svc.
Variables calculate_roi forecast_sales calculate_pnl generate_balance_sheet
  generate_cash_flow_statement analyze_break_even : Json -> outcome Dict.
Variable json_loads : string -> option Json.
Variable json_dumps : Dict -> string.

Lemma retry_loop_completion_trace (messages : list ChatMessage) :
  forall (attempts : list Z) (last : option PyException) (svc : Svc),
    Forall (fun a => 0 <= a <= 3) attempts ->
    forallb is_retry_event
      (snd (retry_loop (generate_response create messages) 3 1 true attempts last svc))
    = true.
Proof.
  induction attempts as [|a attempts IH]; intros last svc Hall.
  - cbn [retry_loop]. destruct last; reflexivity.
  - inversion Hall as [|? ? Ha Hrest]; subst.
    assert (Hev : forall inner, inner = [EvCompletion] ->
                    is_retry_event (EvCall a inner) = true).
    { intros inner ->. cbn [is_retry_event].
      apply andb_true_iff. split; apply Z.leb_le; lia. }
    cbn [retry_loop]. unfold generate_response at 1.
    destruct (create messages svc) as [[response | e] svc1].
    + cbn [snd forallb]. rewrite Hev by reflexivity. reflexivity.
    + destruct (negb (retryable (classify_error _))).
      * cbn [snd forallb]. rewrite Hev by reflexivity. reflexivity.
      * destruct (a >=? 3).
        -- cbn [snd forallb]. rewrite Hev by reflexivity. reflexivity.
        -- specialize (IH (Some (OtherException "OpenAIServiceError"
                              ("Fehler bei OpenAI API Call: " ++ py_str e)%string))
                           svc1 Hrest).
           destruct (retry_loop _ _ _ _ attempts _ svc1) as [[r' s2] tr].
           cbn [snd forallb] in *. rewrite Hev by reflexivity. exact IH.
Qed.

Lemma call_openai_trace (messages : list ChatMessage) (svc : Svc) :
  forallb is_retry_event (snd (_call_openai create messages svc)) = true.
Proof.
  unfold _call_openai, retry_on_error, with_retry.
  apply retry_loop_completion_trace.
  repeat constructor; lia.
Qed.

Lemma chat_loop_trace (remaining : nat) :
  forall (iteration : Z) (history : list ChatMessage) (chunks : list Chunk)
         (svc : Svc) (trace : list Event),
    forallb is_retry_event trace = true ->
    forallb is_retry_event
      (snd (chat_loop create calculate_roi forecast_sales calculate_pnl
                      generate_balance_sheet generate_cash_flow_statement
                      analyze_break_even json_loads json_dumps
                      remaining iteration history chunks svc trace))
    = true.
Proof.
  induction remaining as [|remaining IH];
    intros iteration history chunks svc trace Htrace.
  - exact Htrace.
  - cbn [chat_loop].
    pose proof (call_openai_trace history svc) as Hcall.
    destruct (_call_openai create history svc) as [[r svc1] tr].
    cbn [snd] in Hcall.
    assert (Hnew : forallb is_retry_event (trace ++ tr) = true).
    { rewrite forallb_app, Htrace, Hcall. reflexivity. }
    destruct r as [response | e]; [| exact Hnew].
    destruct (String.eqb (resp_finish_reason response) "stop").
    { destruct (String.eqb (resp_content response) ""); exact Hnew. }
    destruct (String.eqb (resp_finish_reason response) "tool_calls"
              && negb (Nat.eqb (List.length (requested response)) 0)).
    + destruct (run_tool_calls _ _ _ _ _ _ _ _ _ _ _) as [[[e |] history'] chunks'].
      * exact Hnew.
      * apply IH. exact Hnew.
    + destruct (String.eqb (resp_content response) ""); exact Hnew.
Qed.

End DriverFacts.

Lemma retry_events_wrapped (trace : list Event) :
  forallb is_retry_event trace = true ->
  forallb (wrapped_in_retry false) trace = true /\ grants trace = 0%nat.
Proof.
  unfold grants. induction trace as [|ev trace IH]; intros H; [split; reflexivity |].
  cbn [forallb] in H. apply andb_true_iff in H. destruct H as [Hev Hrest].
  destruct (IH Hrest) as [Hw Hg]. cbn [forallb flat_map].
  rewrite filter_app, length_app, Hg, Hw.
  destruct ev as [attempt inner | delay | now |]; try discriminate Hev.
  - destruct inner as [|[| | |] [|]]; try discriminate Hev. split; reflexivity.
  - split; reflexivity.
Qed.

(** C2, as stated, fails: a turn answered by the first completion request makes
    that request inside the retry wrapper but without any grant of the rate
    limiter. *)
Lemma chat_completion_not_rate_limited :
  let run := sample_chat (scripted_service 0) fresh_agent "Hallo" in
  run_trace run = [EvCall 0 [EvCompletion]]
  /\ completions (run_trace run) = 1%nat
  /\ grants (run_trace run) = 0%nat
  /\ gated_by_limiter false (flat_map flatten (run_trace run)) = false.
Proof. vm_compute. repeat split. Qed.

(** C2, amended.  Every completion request that the driver makes during a turn
    passes through the retry wrapper with [max_retries = 3]: the effects of a turn
    are sleeps and attempts numbered 0 to 3, each attempt making exactly one
    completion request, so no completion request happens outside an attempt.  The
    driver does not use the rate limiter: no turn obtains a grant from it. *)
Theorem chat_completions_retried_not_rate_limited :
  forall (Svc : Type)
         (create : list ChatMessage -> Svc -> outcome OpenAIResponse * Svc)
         (calculate_roi forecast_sales calculate_pnl generate_balance_sheet
          generate_cash_flow_statement analyze_break_even : Json -> outcome Dict)
         (json_loads : string -> option Json) (json_dumps : Dict -> string)
         (self : DexterAgent) (user_message : string) (svc : Svc),
    let run :=
      chat create calculate_roi forecast_sales calculate_pnl generate_balance_sheet
           generate_cash_flow_statement analyze_break_even json_loads json_dumps
           self user_message svc in
    forallb is_retry_event (run_trace run) = true
    /\ forallb (wrapped_in_retry false) (run_trace run) = true
    /\ grants (run_trace run) = 0%nat.
Proof.
  intros Svc create h1 h2 h3 h4 h5 h6 json_loads json_dumps self user_message svc run.
  assert (H : forallb is_retry_event (run_trace run) = true).
  { subst run. unfold chat.
    match goal with
    | |- context [chat_loop _ _ _ _ _ _ _ _ _ ?n ?i ?h ?c ?s ?t] =>
        pose proof (chat_loop_trace create h1 h2 h3 h4 h5 h6 json_loads json_dumps
                                    n i h c s t eq_refl) as Hloop;
        destruct (chat_loop create h1 h2 h3 h4 h5 h6 json_loads json_dumps n i h c s t)
          as [[[[iteration history] chunks] svc'] trace]
    end.
    exact Hloop. }
  split; [exact H | apply retry_events_wrapped; exact H].
Qed.

(** C1, at the boundary.  When the completion service asks for a tool on nine
    requests and answers "Done" with finish reason stop on the tenth, the driver
    makes ten completion requests, appends and yields the answer, and then still
    yields the notice about the maximal number of iterations. *)
Theorem chat_notice_after_stop_on_last_iteration :
  let run := sample_chat (scripted_service 9) fresh_agent "ROI?" in
  run_iteration run = 10
  /\ completions (run_trace run) = 10%nat
  /\ run_svc run = 10%nat
  /\ skipn 9 (run_chunks run) = [Text "Done"; Text max_iterations_reached_notice]
  /\ skipn 20 (conversation_history (run_agent run))
     = [mkChatMessage assistant "Done" None None None].
Proof. vm_compute. repeat split. Qed.

(** A stop on an earlier iteration ends the turn without the notice. *)
Example chat_stop_before_last_iteration :
  let run := sample_chat (scripted_service 1) fresh_agent "ROI?" in
  run_iteration run = 2
  /\ run_chunks run
     = [Text (nl2 ++ "[Verwende Tool: calculate_roi]" ++ nl2)%string; Text "Done"]
  /\ map role (conversation_history (run_agent run))
     = [system; user; assistant; tool; assistant].
Proof. vm_compute. repeat split. Qed.

(** A service that asks for a tool on every request is stopped after ten
    completion requests, and the turn ends with the notice. *)
Example chat_iteration_cap :
  let run := sample_chat (scripted_service 1000) fresh_agent "ROI?" in
  run_iteration run = 10
  /\ completions (run_trace run) = 10%nat
  /\ skipn 10 (run_chunks run) = [Text max_iterations_reached_notice].
Proof. vm_compute. repeat split. Qed.

(* ================================================================== *)
(** * Further properties *)
(* ================================================================== *)

Import Trace MessageConversion ToolConverter Turn MoreScenarios.

(* ------------------------------------------------------------------ *)
(** ** Error classification, continued *)

Lemma classify_error_cases (error : PyException) :
  classify_error error = RateLimitError (py_str error) 60
  \/ classify_error error = AuthenticationError (py_str error)
  \/ classify_error error = InvalidRequestError (py_str error)
  \/ classify_error error = ServiceUnavailableError (py_str error)
  \/ classify_error error = ContextLengthExceededError (py_str error)
  \/ classify_error error = OpenAIError_init (py_str error) None true None.
Proof.
  unfold classify_error.
  repeat match goal with
         | |- context [if ?c then _ else _] => destruct c
         end; tauto.
Qed.

Lemma classify_error_message (error : PyException) :
  message (classify_error error) = py_str error.
Proof.
  destruct (classify_error_cases error) as [H | [H | [H | [H | [H | H]]]]];
    rewrite H; reflexivity.
Qed.

Lemma classify_error_ext (e1 e2 : PyException) :
  py_str e1 = py_str e2 -> classify_error e1 = classify_error e2.
Proof. unfold classify_error. intros ->. reflexivity. Qed.

(** X1.  Classifying an already classified error gives the same error again:
    class, message, status, retryability and retry_after are all kept. *)
Theorem classify_error_stable :
  forall error : PyException,
    classify_error (OpenAIErr (classify_error error)) = classify_error error.
Proof.
  intros error. apply classify_error_ext. cbn [py_str].
  apply classify_error_message.
Qed.

(** X2.  Two error texts that differ only in the case of their letters get the
    same class, status code, retryability and retry_after. *)
Theorem classify_error_case_insensitive :
  forall e1 e2 : PyException,
    lower (py_str e1) = lower (py_str e2) ->
    err_class (classify_error e1) = err_class (classify_error e2)
    /\ status_code (classify_error e1) = status_code (classify_error e2)
    /\ retryable (classify_error e1) = retryable (classify_error e2)
    /\ retry_after (classify_error e1) = retry_after (classify_error e2).
Proof.
  intros e1 e2 H. unfold classify_error. rewrite H.
  repeat match goal with
         | |- context [if ?c then _ else _] => destruct c
         end; repeat split.
Qed.

Lemma classify_error_case_insensitive_witness :
  err_class (classify_error (OtherException "Exception" "SERVICE UNAVAILABLE"))
  = err_class (classify_error (OtherException "Exception" "Service unavailable"))
  /\ status_code (classify_error (OtherException "Exception" "SERVICE UNAVAILABLE"))
     = status_code (classify_error (OtherException "Exception" "Service unavailable"))
  /\ retryable (classify_error (OtherException "Exception" "SERVICE UNAVAILABLE"))
     = retryable (classify_error (OtherException "Exception" "Service unavailable"))
  /\ retry_after (classify_error (OtherException "Exception" "SERVICE UNAVAILABLE"))
     = retry_after (classify_error (OtherException "Exception" "Service unavailable")).
Proof.
  apply (classify_error_case_insensitive
           (OtherException "Exception" "SERVICE UNAVAILABLE")
           (OtherException "Exception" "Service unavailable")).
  vm_compute. reflexivity.
Defined.

(** X3.  The wait before a retry depends on the class of the failure: a rate
    limit waits 60 seconds and an unavailable service 30 seconds, whatever
    [base_delay] and the back-off switch are; only an unclassified failure waits
    [base_delay * 2 ** attempt] (or [base_delay] without exponential back-off).
    No other class is retryable. *)
Theorem retry_delay_by_class :
  forall (error : PyException) (base_delay : Q) (exponential_backoff : bool)
         (attempt : Z),
    retryable (classify_error error) = true ->
    let delay :=
      retry_delay (classify_error error) base_delay exponential_backoff attempt in
    (err_class (classify_error error) = CRateLimitError /\ delay = inject_Z 60)
    \/ (err_class (classify_error error) = CServiceUnavailableError
        /\ delay = inject_Z 30)
    \/ (err_class (classify_error error) = COpenAIError
        /\ delay = if exponential_backoff
                   then Qmult base_delay (inject_Z (2 ^ attempt))
                   else base_delay).
Proof.
  intros error base_delay exponential_backoff attempt Hr delay. subst delay.
  destruct (classify_error_cases error) as [H | [H | [H | [H | [H | H]]]]];
    rewrite H in *; cbn in Hr; try discriminate Hr.
  - left. split; reflexivity.
  - right; left. split; reflexivity.
  - right; right. split; reflexivity.
Qed.

Lemma retry_delay_by_class_witness :
  let error := OtherException "Exception" "Connection reset by peer" in
  let delay := retry_delay (classify_error error) (1 # 2) true 3 in
  (err_class (classify_error error) = CRateLimitError /\ delay = inject_Z 60)
  \/ (err_class (classify_error error) = CServiceUnavailableError
      /\ delay = inject_Z 30)
  \/ (err_class (classify_error error) = COpenAIError
      /\ delay = if true then Qmult (1 # 2) (inject_Z (2 ^ 3)) else (1 # 2)).
Proof.
  apply (retry_delay_by_class
           (OtherException "Exception" "Connection reset by peer") (1 # 2) true 3).
  vm_compute. reflexivity.
Defined.

(* ------------------------------------------------------------------ *)
(** ** Bounded retry, continued *)

Section RetryBounds.
Context {St A : Type}.
Variable func : Op St A.
Variable max_retries : Z.
Variable base_delay : Q.
Variable exponential_backoff : bool.

(** Retryable failures on every attempt use up the attempts that are left. *)
Lemma retry_loop_exhausts (n : nat) :
  forall (a : nat) (last : option PyException) (s : St),
    Z.of_nat (a + S n) = max_retries + 1 ->
    (forall s' : St, exists e,
        fst (fst (func s')) = Raised e /\ retryable (classify_error e) = true) ->
    exists e tr,
      outcome_at func n s = Raised e
      /\ retry_loop func max_retries base_delay exponential_backoff
                    (map Z.of_nat (seq a (S n))) last s
         = (Raised (OpenAIErr (classify_error e)), state_after func (S n) s, tr)
      /\ calls tr = S n /\ sleeps tr = n.
Proof.
  induction n as [|n IH]; intros a last s Ha Hfail.
  - cbn [seq map retry_loop]. destruct (Hfail s) as [e [He Hr]].
    unfold outcome_at. cbn [state_after].
    destruct (func s) as [[r s1] inner]. cbn [fst snd] in *. subst r.
    rewrite Hr. cbn [negb].
    replace (Z.of_nat a >=? max_retries) with true
      by (symmetry; rewrite Z.geb_leb; apply Z.leb_le; lia).
    exists e. eexists. repeat split.
  - change (seq a (S (S n))) with (a :: seq (S a) (S n)). cbn [map retry_loop].
    destruct (Hfail s) as [e [He Hr]].
    assert (Hshift : outcome_at func (S n) s
                     = outcome_at func n (snd (fst (func s)))) by reflexivity.
    assert (Hstate : state_after func (S (S n)) s
                     = state_after func (S n) (snd (fst (func s)))) by reflexivity.
    destruct (func s) as [[r s1] inner]. cbn [fst snd] in *. subst r.
    rewrite Hr. cbn [negb].
    replace (Z.of_nat a >=? max_retries) with false
      by (symmetry; rewrite Z.geb_leb; apply Z.leb_gt; lia).
    destruct (IH (S a) (Some e) s1 ltac:(lia) Hfail) as [e' [tr [Hout [Hrun [Hc Hs]]]]].
    rewrite Hrun, Hshift, Hstate. exists e'. eexists. repeat split.
    + exact Hout.
    + unfold calls in *. cbn [filter List.length]. rewrite Hc. reflexivity.
    + unfold sleeps in *. cbn [filter List.length]. rewrite Hs. reflexivity.
Qed.

(** What every run of the loop over the attempts [a, a+1, ..., max_retries] obeys. *)
Lemma retry_loop_bounds (n : nat) :
  forall (a : nat) (last : option PyException) (s : St),
    n = O \/ Z.of_nat (a + n) = max_retries + 1 ->
    let res := retry_loop func max_retries base_delay exponential_backoff
                          (map Z.of_nat (seq a n)) last s in
    (calls (snd res) <= n)%nat
    /\ sleeps (snd res) = (calls (snd res) - 1)%nat
    /\ match fst (fst res) with
       | Raised (OtherException _ _) => False
       | _ => True
       end.
Proof.
  induction n as [|n IH]; intros a last s Ha res; subst res.
  - cbn [seq map retry_loop]. destruct last; cbn; repeat split; lia.
  - cbn [seq map retry_loop].
    destruct (func s) as [[[v | e] s1] inner].
    + cbn. repeat split; lia.
    + destruct (negb (retryable (classify_error e))); [cbn; repeat split; lia |].
      destruct (Z.of_nat a >=? max_retries) eqn:Hlast; [cbn; repeat split; lia |].
      rewrite Z.geb_leb in Hlast. apply Z.leb_gt in Hlast.
      assert (Hn : n <> O) by lia.
      specialize (IH (S a) (Some e) s1 ltac:(right; lia)). cbv zeta in IH.
      destruct (retry_loop _ _ _ _ (map Z.of_nat (seq (S a) n)) _ s1)
        as [[r' s2] tr] eqn:Hrun.
      cbn [fst snd] in *. destruct IH as [Hc [Hs Hr]].
      assert (Hpos : (1 <= calls tr)%nat).
      { destruct n as [|n']; [contradiction |].
        revert Hrun. cbn [seq map retry_loop].
        destruct (func s1) as [[[v' | e'] s3] inner'].
        - intros E; injection E as _ _ <-. cbn. lia.
        - destruct (negb (retryable (classify_error e')));
            [intros E; injection E as _ _ <-; cbn; lia |].
          destruct (Z.of_nat (S a) >=? max_retries);
            [intros E; injection E as _ _ <-; cbn; lia |].
          destruct (retry_loop _ _ _ _ _ _ s3) as [[r3 s4] tr3].
          intros E; injection E as _ _ <-. cbn. lia. }
      unfold calls, sleeps in *. cbn [filter List.length].
      repeat split; [lia | lia | exact Hr].
Qed.

End RetryBounds.

(** X4.  When every invocation of the operation fails with a retryable error and
    [max_retries >= 0], [with_retry] invokes it exactly [max_retries + 1] times,
    sleeps [max_retries] times in between, and raises the classified error of the
    last failure. *)
Theorem with_retry_exhausts :
  forall (St A : Type) (func : Op St A) (max_retries : Z) (base_delay : Q)
         (exponential_backoff : bool) (s : St),
    0 <= max_retries ->
    (forall s' : St, exists e,
        fst (fst (func s')) = Raised e /\ retryable (classify_error e) = true) ->
    exists e tr,
      outcome_at func (Z.to_nat max_retries) s = Raised e
      /\ with_retry func max_retries base_delay exponential_backoff s
         = (Raised (OpenAIErr (classify_error e)),
            state_after func (Z.to_nat max_retries + 1) s, tr)
      /\ Z.of_nat (calls tr) = max_retries + 1
      /\ Z.of_nat (sleeps tr) = max_retries.
Proof.
  intros St A func max_retries base_delay exponential_backoff s Hmax Hfail.
  unfold with_retry. rewrite py_range_succ by exact Hmax.
  destruct (retry_loop_exhausts func max_retries base_delay exponential_backoff
              (Z.to_nat max_retries) O None s ltac:(lia) Hfail)
    as [e [tr [Hout [Hrun [Hc Hs]]]]].
  exists e, tr. rewrite Nat.add_1_r. repeat split; try assumption; lia.
Qed.

(** X5.  With a negative [max_retries] the operation is never invoked:
    [with_retry] raises the non-retryable error "Unexpected error in retry logic"
    at once and leaves the state as it was. *)
Theorem with_retry_negative_budget :
  forall (St A : Type) (func : Op St A) (max_retries : Z) (base_delay : Q)
         (exponential_backoff : bool) (s : St),
    max_retries < 0 ->
    with_retry func max_retries base_delay exponential_backoff s
    = (Raised (OpenAIErr (mkOpenAIError COpenAIError "Unexpected error in retry logic"
                                        None false None)), s, []).
Proof.
  intros St A func max_retries base_delay exponential_backoff s Hneg.
  unfold with_retry, py_range.
  replace (Z.to_nat (max_retries + 1)) with O by lia. reflexivity.
Qed.

(** X6.  Whatever the operation does, [with_retry] invokes it at most
    [max_retries + 1] times, sleeps exactly once between two consecutive
    invocations and never after the last one, and raises nothing but instances of
    [OpenAIError]. *)
Theorem with_retry_bounded :
  forall (St A : Type) (func : Op St A) (max_retries : Z) (base_delay : Q)
         (exponential_backoff : bool) (s : St),
    let res := with_retry func max_retries base_delay exponential_backoff s in
    (calls (snd res) <= Z.to_nat (max_retries + 1))%nat
    /\ sleeps (snd res) = (calls (snd res) - 1)%nat
    /\ match fst (fst res) with
       | Raised (OtherException _ _) => False
       | _ => True
       end.
Proof.
  intros St A func max_retries base_delay exponential_backoff s.
  unfold with_retry, py_range.
  apply (retry_loop_bounds func max_retries base_delay exponential_backoff
           (Z.to_nat (max_retries + 1)) O None s).
  destruct (Z.to_nat (max_retries + 1)) eqn:E; [left; reflexivity | right; lia].
Qed.

Lemma with_retry_exhausts_witness :
  exists e tr,
    outcome_at always_unavailable (Z.to_nat 2) 0%nat = Raised e
    /\ with_retry always_unavailable 2 1 true 0%nat
       = (Raised (OpenAIErr (classify_error e)),
          state_after always_unavailable (Z.to_nat 2 + 1) 0%nat, tr)
    /\ Z.of_nat (calls tr) = 2 + 1
    /\ Z.of_nat (sleeps tr) = 2.
Proof.
  apply (with_retry_exhausts nat string always_unavailable 2 1 true 0%nat).
  - lia.
  - intros s'. eexists. split; [reflexivity | vm_compute; reflexivity].
Defined.

Lemma with_retry_negative_budget_witness :
  with_retry flaky_function (-1) 1 true 0%nat
  = (Raised (OpenAIErr (mkOpenAIError COpenAIError "Unexpected error in retry logic"
                                      None false None)), 0%nat, []).
Proof.
  apply (with_retry_negative_budget nat string flaky_function (-1) 1 true 0%nat). lia.
Defined.

(* ------------------------------------------------------------------ *)
(** ** Rate limiter, continued *)

Lemma filter_window_shrinks (c1 c2 : Z) (l : list Z) :
  c1 <= c2 ->
  filter (fun ts => ts >? c2) (filter (fun ts => ts >? c1) l)
  = filter (fun ts => ts >? c2) l.
Proof.
  intros H. induction l as [|x l IH]; [reflexivity |]. cbn [filter].
  destruct (x >? c1) eqn:E1; cbn [filter]; destruct (x >? c2) eqn:E2;
    rewrite ?IH; try reflexivity.
  rewrite Z.gtb_ltb in E1, E2. apply Z.ltb_lt in E2. apply Z.ltb_ge in E1. lia.
Qed.

Lemma filter_head_in_window (c oldest : Z) (rest l : list Z) :
  oldest :: rest = filter (fun ts => ts >? c) l -> c < oldest.
Proof.
  intros H. assert (Hin : In oldest (filter (fun ts => ts >? c) l)).
  { rewrite <- H. left. reflexivity. }
  apply filter_In in Hin. destruct Hin as [_ Hgt].
  rewrite Z.gtb_ltb in Hgt. apply Z.ltb_lt in Hgt. exact Hgt.
Qed.

(** With [max_requests >= 1]: the grant, the window at the time of the grant and
    the sleeps before it. *)
Lemma acquire_grants (fuel : nat) :
  forall (late : nat -> nat) (self : RateLimiter) (now : Z),
    1 <= max_requests self ->
    (List.length (filter (fun ts => ts >? now - time_window self) (requests self))
     < fuel)%nat ->
    exists now' tr,
      acquire fuel late self now
      = Some (Returned tt,
              set_requests self
                (filter (fun ts => ts >? now' - time_window self) (requests self)
                 ++ [now']),
              tr ++ [EvGrant now'])
      /\ now <= now'
      /\ Z.of_nat (List.length
                     (filter (fun ts => ts >? now' - time_window self) (requests self)))
         < max_requests self
      /\ forallb is_sleep tr = true.
Proof.
  induction fuel as [|fuel IH]; intros late self now Hmax Hfuel; [lia |].
  cbn [acquire]. cbn [set_requests requests max_requests time_window].
  remember (filter (fun ts => ts >? now - time_window self) (requests self))
    as reqs eqn:Hreqs.
  destruct (Z.of_nat (List.length reqs) >=? max_requests self) eqn:Hfull.
  - destruct reqs as [|oldest rest].
    + rewrite Z.geb_leb in Hfull. apply Z.leb_le in Hfull. simpl in Hfull. lia.
    + pose proof (filter_head_in_window _ _ _ _ Hreqs) as Hin.
      replace (time_window self - (now - oldest) >? 0) with true
        by (symmetry; rewrite Z.gtb_ltb; apply Z.ltb_lt; lia).
      set (self1 := mkRateLimiter (max_requests self) (time_window self)
                                  (oldest :: rest)).
      set (now1 := now + (time_window self - (now - oldest)) + Z.of_nat (late O)).
      destruct (IH (fun i => late (S i)) self1 now1)
        as [now' [tr [Hrun [Hle [Hlen Hsl]]]]].
      * exact Hmax.
      * subst self1. cbn [requests time_window filter].
        replace (oldest >? now1 - time_window self) with false
          by (symmetry; rewrite Z.gtb_ltb; apply Z.ltb_ge; subst now1; lia).
        pose proof (filter_length_le (fun ts => ts >? now1 - time_window self) rest).
        simpl in Hfuel. lia.
      * change (set_requests self (oldest :: rest)) with self1.
        rewrite Hrun. subst self1. cbn [requests time_window set_requests max_requests] in *.
        rewrite Hreqs in Hlen |- *.
        rewrite filter_window_shrinks in Hlen |- * by (subst now1; lia).
        exists now', (EvSleep (inject_Z (time_window self - (now - oldest))) :: tr).
        repeat split.
        -- subst now1; lia.
        -- exact Hlen.
        -- cbn [forallb is_sleep]. exact Hsl.
  - subst reqs. exists now, []. rewrite Z.geb_leb in Hfull. apply Z.leb_gt in Hfull.
    split; [reflexivity |]. split; [lia |]. split; [exact Hfull | reflexivity].
Qed.

(** X7.  After [acquire] returns on a limiter with [max_requests >= 1], the stored
    timestamps are the earlier ones still inside the window at the time of the
    grant, followed by the time of the grant, and they are at most [max_requests]:
    the limiter never holds more than its limit, whatever it held before. *)
Theorem acquire_keeps_limit :
  forall (max_requests time_window : Z) (requests : list Z) (now : Z)
         (late : nat -> nat) (fuel : nat),
    1 <= max_requests ->
    (List.length requests < fuel)%nat ->
    exists now' tr,
      acquire fuel late (mkRateLimiter max_requests time_window requests) now
      = Some (Returned tt,
              mkRateLimiter max_requests time_window
                (filter (fun ts => ts >? now' - time_window) requests ++ [now']),
              tr)
      /\ now <= now'
      /\ Z.of_nat (List.length
                     (filter (fun ts => ts >? now' - time_window) requests ++ [now']))
         <= max_requests.
Proof.
  intros max_requests time_window requests now late fuel Hmax Hfuel.
  destruct (acquire_grants fuel late
              (mkRateLimiter max_requests time_window requests) now)
    as [now' [tr [Hrun [Hle [Hlen _]]]]].
  - exact Hmax.
  - cbn [ErrorHandler.requests ErrorHandler.time_window].
    pose proof (filter_length_le (fun ts => ts >? now - time_window) requests). lia.
  - cbn [ErrorHandler.requests ErrorHandler.time_window ErrorHandler.max_requests
         set_requests] in *.
    exists now', (tr ++ [EvGrant now']). repeat split; try assumption.
    rewrite length_app. simpl. lia.
Qed.

Lemma acquire_keeps_limit_witness :
  exists now' tr,
    acquire 6 (fun _ => 2%nat) (mkRateLimiter 2 10 [0; 1; 2; 3; 4]) 5
    = Some (Returned tt,
            mkRateLimiter 2 10
              (filter (fun ts => ts >? now' - 10) [0; 1; 2; 3; 4] ++ [now']),
            tr)
    /\ 5 <= now'
    /\ Z.of_nat (List.length
                   (filter (fun ts => ts >? now' - 10) [0; 1; 2; 3; 4] ++ [now']))
       <= 2.
Proof.
  apply (acquire_keeps_limit 2 10 [0; 1; 2; 3; 4] 5 (fun _ => 2%nat) 6%nat).
  - lia.
  - simpl. lia.
Defined.

(** X8.  Sliding window.  When the timestamps inside the window already reach the
    limit ([max_requests >= 1]), [acquire] first sleeps exactly until the oldest of
    them leaves the window, that is [time_window - (now - oldest)], and the grant
    is recorded no earlier than [oldest + time_window]. *)
Theorem acquire_waits_for_oldest :
  forall (max_requests time_window : Z) (requests : list Z) (now : Z)
         (late : nat -> nat) (fuel : nat) (oldest : Z) (rest : list Z),
    1 <= max_requests ->
    (List.length requests < fuel)%nat ->
    filter (fun ts => ts >? now - time_window) requests = oldest :: rest ->
    max_requests <= Z.of_nat (List.length (oldest :: rest)) ->
    exists now' kept tr,
      acquire fuel late (mkRateLimiter max_requests time_window requests) now
      = Some (Returned tt,
              mkRateLimiter max_requests time_window (kept ++ [now']),
              EvSleep (inject_Z (time_window - (now - oldest))) :: tr ++ [EvGrant now'])
      /\ oldest + time_window <= now'
      /\ forallb is_sleep tr = true.
Proof.
  intros max_requests time_window requests now late fuel oldest rest
         Hmax Hfuel Hwin Hfull.
  destruct fuel as [|fuel]; [lia |].
  cbn [acquire]. cbn [set_requests ErrorHandler.requests ErrorHandler.max_requests
                      ErrorHandler.time_window].
  rewrite Hwin.
  replace (Z.of_nat (List.length (oldest :: rest)) >=? max_requests) with true
    by (symmetry; rewrite Z.geb_leb; apply Z.leb_le; exact Hfull).
  pose proof (filter_head_in_window _ _ _ _ (eq_sym Hwin)) as Hin.
  replace (time_window - (now - oldest) >? 0) with true
    by (symmetry; rewrite Z.gtb_ltb; apply Z.ltb_lt; lia).
  set (now1 := now + (time_window - (now - oldest)) + Z.of_nat (late O)).
  destruct (acquire_grants fuel (fun i => late (S i))
              (mkRateLimiter max_requests time_window (oldest :: rest)) now1)
    as [now' [tr [Hrun [Hle [_ Hsl]]]]].
  - exact Hmax.
  - cbn [ErrorHandler.requests ErrorHandler.time_window filter].
    replace (oldest >? now1 - time_window) with false
      by (symmetry; rewrite Z.gtb_ltb; apply Z.ltb_ge; subst now1; lia).
    pose proof (filter_length_le (fun ts => ts >? now1 - time_window) rest).
    pose proof (filter_length_le (fun ts => ts >? now - time_window) requests) as Hl.
    rewrite Hwin in Hl. simpl in Hl. lia.
  - change (set_requests _ (oldest :: rest))
      with (mkRateLimiter max_requests time_window (oldest :: rest)).
    rewrite Hrun.
    cbn [set_requests ErrorHandler.requests ErrorHandler.max_requests
         ErrorHandler.time_window].
    eexists now', _, tr. split; [reflexivity |]. split; [subst now1; lia | exact Hsl].
Qed.

Lemma acquire_waits_for_oldest_witness :
  exists now' kept tr,
    acquire 4 (fun _ => O) (mkRateLimiter 3 10 [0; 1; 2]) 3
    = Some (Returned tt, mkRateLimiter 3 10 (kept ++ [now']),
            EvSleep (inject_Z (10 - (3 - 0))) :: tr ++ [EvGrant now'])
    /\ 0 + 10 <= now'
    /\ forallb is_sleep tr = true.
Proof.
  apply (acquire_waits_for_oldest 3 10 [0; 1; 2] 3 (fun _ => O) 4%nat 0 [1; 2]).
  - lia.
  - simpl. lia.
  - reflexivity.
  - simpl. lia.
Defined.

Lemma acquire_never_grants (fuel : nat) :
  forall (late : nat -> nat) (self : RateLimiter) (now : Z),
    max_requests self <= 0 ->
    (List.length (filter (fun ts => ts >? now - time_window self) (requests self))
     < fuel)%nat ->
    exists tr,
      acquire fuel late self now = Some (Raised IndexError, set_requests self [], tr)
      /\ forallb is_sleep tr = true.
Proof.
  induction fuel as [|fuel IH]; intros late self now Hmax Hfuel; [lia |].
  cbn [acquire]. cbn [set_requests requests max_requests time_window].
  remember (filter (fun ts => ts >? now - time_window self) (requests self))
    as reqs eqn:Hreqs.
  replace (Z.of_nat (List.length reqs) >=? max_requests self) with true
    by (symmetry; rewrite Z.geb_leb; apply Z.leb_le; lia).
  destruct reqs as [|oldest rest].
  - exists []. split; reflexivity.
  - pose proof (filter_head_in_window _ _ _ _ Hreqs) as Hin.
    replace (time_window self - (now - oldest) >? 0) with true
      by (symmetry; rewrite Z.gtb_ltb; apply Z.ltb_lt; lia).
    set (self1 := mkRateLimiter (max_requests self) (time_window self)
                                (oldest :: rest)).
    set (now1 := now + (time_window self - (now - oldest)) + Z.of_nat (late O)).
    destruct (IH (fun i => late (S i)) self1 now1) as [tr [Hrun Hsl]].
    + exact Hmax.
    + subst self1. cbn [requests time_window filter].
      replace (oldest >? now1 - time_window self) with false
        by (symmetry; rewrite Z.gtb_ltb; apply Z.ltb_ge; subst now1; lia).
      pose proof (filter_length_le (fun ts => ts >? now1 - time_window self) rest).
      simpl in Hfuel. lia.
    + change (set_requests self (oldest :: rest)) with self1. rewrite Hrun.
      eexists. split; [reflexivity | exact Hsl].
Qed.

(** X9.  A limiter with [max_requests <= 0] never grants a request: whatever
    timestamps it holds, [acquire] sleeps until none of them is inside the window
    and then raises the index error, leaving the list empty. *)
Theorem acquire_without_capacity :
  forall (max_requests time_window : Z) (requests : list Z) (now : Z)
         (late : nat -> nat) (fuel : nat),
    max_requests <= 0 ->
    (List.length requests < fuel)%nat ->
    exists tr,
      acquire fuel late (mkRateLimiter max_requests time_window requests) now
      = Some (Raised IndexError, mkRateLimiter max_requests time_window [], tr)
      /\ forallb is_sleep tr = true.
Proof.
  intros max_requests time_window requests now late fuel Hmax Hfuel.
  apply (acquire_never_grants fuel late
           (mkRateLimiter max_requests time_window requests) now).
  - exact Hmax.
  - cbn [ErrorHandler.requests ErrorHandler.time_window].
    pose proof (filter_length_le (fun ts => ts >? now - time_window) requests). lia.
Qed.

Lemma acquire_without_capacity_witness :
  exists tr,
    acquire 3 (fun _ => 1%nat) (mkRateLimiter (-1) 10 [4; 7]) 8
    = Some (Raised IndexError, mkRateLimiter (-1) 10 [], tr)
    /\ forallb is_sleep tr = true.
Proof.
  apply (acquire_without_capacity (-1) 10 [4; 7] 8 (fun _ => 1%nat) 3%nat).
  - lia.
  - simpl. lia.
Defined.

(* ------------------------------------------------------------------ *)
(** ** History trimming, continued *)

Lemma sum_tokens_nonneg (l : list ChatMessage) : 0 <= sum_tokens l.
Proof.
  induction l as [|m l IH]; simpl; [lia |].
  pose proof (estimate_tokens_pos (content m)). lia.
Qed.

Lemma sum_tokens_partition (p : ChatMessage -> bool) (l : list ChatMessage) :
  sum_tokens (filter p l) + sum_tokens (filter (fun m => negb (p m)) l) = sum_tokens l.
Proof.
  induction l as [|m l IH]; simpl; [reflexivity |].
  destruct (p m); simpl; lia.
Qed.

Lemma filter_keeps_all {X : Type} (p : X -> bool) (l : list X) :
  (forall x, In x l -> p x = true) -> filter p l = l.
Proof.
  induction l as [|x l IH]; intros H; [reflexivity |]. cbn [filter].
  rewrite (H x (or_introl eq_refl)), IH; [reflexivity |].
  intros y Hy. apply H. right. exact Hy.
Qed.

Lemma filter_drops_all {X : Type} (p : X -> bool) (l : list X) :
  (forall x, In x l -> p x = false) -> filter p l = [].
Proof.
  induction l as [|x l IH]; intros H; [reflexivity |]. cbn [filter].
  rewrite (H x (or_introl eq_refl)). apply IH.
  intros y Hy. apply H. right. exact Hy.
Qed.

Lemma in_firstn {X : Type} (k : nat) (l : list X) (x : X) :
  In x (firstn k l) -> In x l.
Proof.
  intros H. rewrite <- (firstn_skipn k l). apply in_or_app. left. exact H.
Qed.

(** Messages that fit together are all taken by the backward walk. *)
Lemma trim_walk_all_fit :
  forall (l : list ChatMessage) (remaining current : Z) (acc : list ChatMessage),
    current + sum_tokens l <= remaining ->
    trim_walk l remaining current acc = rev l ++ acc.
Proof.
  induction l as [|m l IH]; intros remaining current acc H; [reflexivity |].
  cbn [trim_walk rev]. simpl in H. pose proof (sum_tokens_nonneg l).
  replace (current + estimate_tokens (content m) >? remaining) with false
    by (symmetry; rewrite Z.gtb_ltb; apply Z.ltb_ge; lia).
  rewrite IH by lia. rewrite <- app_assoc. reflexivity.
Qed.

(** The trimmed history as the walk leaves it, with what the walk guarantees. *)
Lemma trim_conversation_history_walk (messages : list ChatMessage) (max_tokens : Z) :
  let system_messages := filter (fun m => is_system (role m)) messages in
  let other_messages := filter (fun m => negb (is_system (role m))) messages in
  let remaining := max_tokens - sum_tokens system_messages in
  exists kept,
    trim_conversation_history messages max_tokens = system_messages ++ kept
    /\ (forall m, In m kept -> In m other_messages)
    /\ (kept = [] \/ sum_tokens kept <= remaining).
Proof.
  intros system_messages other_messages remaining.
  destruct (trim_walk_takes_prefix (rev other_messages) remaining 0 [])
    as [k [_ [Hw [Hfit _]]]].
  exists (rev (firstn k (rev other_messages))). repeat split.
  - unfold trim_conversation_history.
    fold system_messages other_messages remaining.
    rewrite Hw, app_nil_r. reflexivity.
  - intros m Hm. apply in_rev in Hm. apply in_firstn in Hm.
    apply in_rev in Hm. exact Hm.
  - destruct k as [|k]; [left; reflexivity | right].
    rewrite sum_tokens_rev. specialize (Hfit ltac:(lia)). lia.
Qed.

(** X10.  The estimated tokens of the trimmed history never exceed the budget,
    unless the system messages alone exceed it, in which case the trimmed history
    holds exactly what the system messages cost. *)
Theorem trim_conversation_history_within_budget :
  forall (messages : list ChatMessage) (max_tokens : Z),
    sum_tokens (trim_conversation_history messages max_tokens)
    <= Z.max max_tokens (sum_tokens (filter (fun m => is_system (role m)) messages)).
Proof.
  intros messages max_tokens.
  destruct (trim_conversation_history_walk messages max_tokens)
    as [kept [Hw [_ [Hk | Hk]]]]; rewrite Hw, sum_tokens_app.
  - subst kept. simpl. lia.
  - lia.
Qed.

(** X11.  Trimming is idempotent: trimming an already trimmed history against the
    same budget changes nothing. *)
Theorem trim_conversation_history_idempotent :
  forall (messages : list ChatMessage) (max_tokens : Z),
    trim_conversation_history (trim_conversation_history messages max_tokens) max_tokens
    = trim_conversation_history messages max_tokens.
Proof.
  intros messages max_tokens.
  destruct (trim_conversation_history_walk messages max_tokens)
    as [kept [Hw [Hin Hfit]]].
  rewrite Hw. set (sys := filter (fun m => is_system (role m)) messages) in *.
  assert (Hsys : forall m, In m sys -> is_system (role m) = true).
  { intros m Hm. apply filter_In in Hm. tauto. }
  assert (Hoth : forall m, In m kept -> is_system (role m) = false).
  { intros m Hm. apply Hin, filter_In in Hm. destruct Hm as [_ Hm].
    apply negb_true_iff in Hm. exact Hm. }
  unfold trim_conversation_history. rewrite !filter_app.
  rewrite (filter_keeps_all _ sys Hsys).
  rewrite (filter_drops_all (fun m => is_system (role m)) kept Hoth).
  rewrite (filter_drops_all (fun m => negb (is_system (role m))) sys)
    by (intros m Hm; rewrite (Hsys m Hm); reflexivity).
  rewrite (filter_keeps_all (fun m => negb (is_system (role m))) kept)
    by (intros m Hm; rewrite (Hoth m Hm); reflexivity).
  rewrite app_nil_r. cbn [app]. f_equal.
  destruct Hfit as [-> | Hfit]; [reflexivity |].
  rewrite trim_walk_all_fit by (rewrite sum_tokens_rev; lia).
  rewrite rev_involutive, app_nil_r. reflexivity.
Qed.

(** X12.  A history whose estimated tokens fit in the budget loses no message: the
    result is its system messages followed by its other messages, and it is the
    history itself when the system messages come first. *)
Theorem trim_conversation_history_fits :
  forall (messages : list ChatMessage) (max_tokens : Z),
    sum_tokens messages <= max_tokens ->
    trim_conversation_history messages max_tokens
    = filter (fun m => is_system (role m)) messages
      ++ filter (fun m => negb (is_system (role m))) messages
    /\ (forall front back,
          messages = front ++ back ->
          Forall (fun m => role m = system) front ->
          Forall (fun m => role m <> system) back ->
          trim_conversation_history messages max_tokens = messages).
Proof.
  intros messages max_tokens Hfit.
  assert (E : trim_conversation_history messages max_tokens
              = filter (fun m => is_system (role m)) messages
                ++ filter (fun m => negb (is_system (role m))) messages).
  { unfold trim_conversation_history.
    pose proof (sum_tokens_partition (fun m => is_system (role m)) messages) as Hp.
    cbv beta in Hp.
    rewrite trim_walk_all_fit by (rewrite sum_tokens_rev; lia).
    rewrite rev_involutive, app_nil_r. reflexivity. }
  split; [exact E |].
  intros front back -> Hfront Hback. rewrite E, !filter_app.
  rewrite Forall_forall in Hfront, Hback.
  rewrite (filter_keeps_all _ front)
    by (intros m Hm; rewrite (Hfront m Hm); reflexivity).
  rewrite (filter_drops_all (fun m => is_system (role m)) back)
    by (intros m Hm; apply not_system, Hback, Hm).
  rewrite (filter_drops_all (fun m => negb (is_system (role m))) front)
    by (intros m Hm; rewrite (Hfront m Hm); reflexivity).
  rewrite (filter_keeps_all (fun m => negb (is_system (role m))) back)
    by (intros m Hm; rewrite (not_system m (Hback m Hm)); reflexivity).
  rewrite app_nil_r. reflexivity.
Qed.

Lemma trim_conversation_history_fits_witness :
  let history :=
    [mkChatMessage system "You are Dexter." None None None;
     mkChatMessage user "Berechne den ROI." None None None;
     mkChatMessage assistant "Der ROI ist 80 %." None None None] in
  trim_conversation_history history 8000
  = filter (fun m => is_system (role m)) history
    ++ filter (fun m => negb (is_system (role m))) history
  /\ trim_conversation_history history 8000 = history.
Proof.
  cbv zeta.
  pose proof (trim_conversation_history_fits
    [mkChatMessage system "You are Dexter." None None None;
     mkChatMessage user "Berechne den ROI." None None None;
     mkChatMessage assistant "Der ROI ist 80 %." None None None] 8000
    ltac:(vm_compute; discriminate)) as [H1 H2].
  split; [exact H1 |].
  apply (H2 [mkChatMessage system "You are Dexter." None None None]
            [mkChatMessage user "Berechne den ROI." None None None;
             mkChatMessage assistant "Der ROI ist 80 %." None None None]).
  - reflexivity.
  - repeat constructor.
  - repeat constructor; discriminate.
Defined.

(* ------------------------------------------------------------------ *)
(** ** The conversation driver, continued *)

Lemma calls_app (a b : list Event) : calls (a ++ b) = (calls a + calls b)%nat.
Proof. unfold calls. rewrite filter_app, length_app. reflexivity. Qed.

Lemma retry_events_completions (trace : list Event) :
  forallb is_retry_event trace = true -> completions trace = calls trace.
Proof.
  unfold completions, calls. induction trace as [|ev trace IH]; intros H;
    [reflexivity |].
  cbn [forallb] in H. apply andb_true_iff in H. destruct H as [Hev Hrest].
  specialize (IH Hrest). cbn [flat_map]. rewrite filter_app, length_app, IH.
  destruct ev as [attempt inner | delay | now |]; try discriminate Hev.
  - destruct inner as [|[| | |] [|]]; try discriminate Hev. reflexivity.
  - reflexivity.
Qed.

Section TurnFacts.
Context {Svc : Type}.
Variable create : list ChatMessage -> Svc -> outcome OpenAIResponse * Svc.
Variables calculate_roi forecast_sales calculate_pnl generate_balance_sheet
  generate_cash_flow_statement analyze_break_even : Json -> outcome Dict.
Variable json_loads : string -> option Json.
Variable json_dumps : Dict -> string.

Local Abbreviation execute :=
  (_execute_tool calculate_roi forecast_sales calculate_pnl generate_balance_sheet
                 generate_cash_flow_statement analyze_break_even).
Local Abbreviation tool_loop :=
  (run_tool_calls calculate_roi forecast_sales calculate_pnl generate_balance_sheet
                  generate_cash_flow_statement analyze_break_even json_loads json_dumps).
Local Abbreviation loop :=
  (chat_loop create calculate_roi forecast_sales calculate_pnl generate_balance_sheet
             generate_cash_flow_statement analyze_break_even json_loads json_dumps).
Local Abbreviation turn :=
  (chat create calculate_roi forecast_sales calculate_pnl generate_balance_sheet
        generate_cash_flow_statement analyze_break_even json_loads json_dumps).

Lemma call_openai_returns (messages : list ChatMessage) (svc svc' : Svc)
    (response : OpenAIResponse) :
  create messages svc = (Returned response, svc') ->
  _call_openai create messages svc
  = (Returned response, svc', [EvCall 0 [EvCompletion]]).
Proof.
  intros H. unfold _call_openai, retry_on_error, with_retry.
  change (py_range (3 + 1)) with [0; 1; 2; 3]. cbn [retry_loop].
  unfold generate_response. rewrite H. reflexivity.
Qed.

Lemma call_openai_fails_fast (messages : list ChatMessage) (svc svc' : Svc)
    (e : PyException) :
  create messages svc = (Raised e, svc') ->
  retryable (classify_error (service_error e)) = false ->
  _call_openai create messages svc
  = (Raised (OpenAIErr (classify_error (service_error e))), svc',
     [EvCall 0 [EvCompletion]]).
Proof.
  intros H Hr. unfold _call_openai, retry_on_error, with_retry.
  change (py_range (3 + 1)) with [0; 1; 2; 3]. cbn [retry_loop].
  unfold generate_response. rewrite H. fold (service_error e). rewrite Hr.
  reflexivity.
Qed.

Lemma call_openai_calls_bound (messages : list ChatMessage) (svc : Svc) :
  (calls (snd (_call_openai create messages svc)) <= 4)%nat.
Proof.
  unfold _call_openai, retry_on_error, with_retry.
  change (py_range (3 + 1)) with (map Z.of_nat (seq 0 4)).
  apply (retry_loop_bounds (generate_response create messages) 3 1 true 4 0 None svc).
  right. reflexivity.
Qed.

Lemma execute_tool_returns (tool_name : string) (tool_input : Json) :
  exists result, execute tool_name tool_input = Returned result.
Proof.
  unfold _execute_tool. cbv zeta.
  match goal with
  | |- exists _, match ?body with _ => _ end = _ => destruct body
  end; eexists; reflexivity.
Qed.

(** One tool message per requested invocation, in the order of the requests. *)
Lemma run_tool_calls_appends (pending : list ToolCall) :
  forall (history : list ChatMessage) (chunks : list Chunk),
    exists msgs more,
      tool_loop pending history chunks = (None, history ++ msgs, chunks ++ more)
      /\ map role msgs = map (fun _ => tool) pending
      /\ map tool_call_id msgs = map (fun tc => Some (tc_id tc)) pending
      /\ map name msgs = map (fun tc => Some (tc_name tc)) pending
      /\ (List.length pending <= List.length more)%nat.
Proof.
  induction pending as [|tc pending IH]; intros history chunks.
  - exists [], []. rewrite !app_nil_r. repeat split. simpl. lia.
  - cbn [run_tool_calls].
    destruct (execute_tool_returns (tc_name tc)
                (match json_loads (tc_arguments tc) with
                 | Some decoded => decoded
                 | None => JObj []
                 end)) as [result Hres].
    rewrite Hres.
    match goal with
    | |- context [tool_loop pending ?h ?c] =>
        destruct (IH h c) as [msgs [more [Hrun [Hr [Hi [Hn Hl]]]]]]; rewrite Hrun
    end.
    eexists (_ :: msgs).
    destruct (dict_mem "formatted_output" result).
    + eexists (_ :: _ :: more). rewrite <- !app_assoc. cbn [app map List.length].
      rewrite Hr, Hi, Hn. repeat split. lia.
    + eexists (_ :: more). rewrite <- !app_assoc. cbn [app map List.length].
      rewrite Hr, Hi, Hn. repeat split. lia.
Qed.

(** What the loop does to the transcript, the counter and the trace. *)
Lemma chat_loop_grows (remaining : nat) :
  forall (iteration : Z) (history : list ChatMessage) (chunks : list Chunk)
         (svc : Svc) (trace : list Event)
         (iteration' : Z) (history' : list ChatMessage) (chunks' : list Chunk)
         (svc' : Svc) (trace' : list Event),
    loop remaining iteration history chunks svc trace
    = (iteration', history', chunks', svc', trace') ->
    (exists added,
        history' = history ++ added
        /\ Forall (fun m => role m = assistant \/ role m = tool) added)
    /\ iteration <= iteration' <= iteration + Z.of_nat remaining
    /\ (remaining <> O -> iteration < iteration')
    /\ Z.of_nat (calls trace') <= Z.of_nat (calls trace) + 4 * (iteration' - iteration).
Proof.
  induction remaining as [|remaining IH];
    intros iteration history chunks svc trace iteration' history' chunks' svc' trace' E.
  - cbn [chat_loop] in E. injection E as <- <- <- <- <-.
    split; [exists []; rewrite app_nil_r; split; [reflexivity | constructor] |].
    repeat split; lia.
  - cbn [chat_loop] in E.
    pose proof (call_openai_calls_bound history svc) as Hcalls.
    destruct (_call_openai create history svc) as [[r svc1] tr].
    cbn [snd] in Hcalls.
    assert (Hstop : forall added,
               Forall (fun m => role m = assistant \/ role m = tool) added ->
               (iteration + 1, history ++ added, chunks', svc1, trace ++ tr)
               = (iteration', history', chunks', svc', trace') ->
               (exists added0,
                   history' = history ++ added0
                   /\ Forall (fun m => role m = assistant \/ role m = tool) added0)
               /\ iteration <= iteration' <= iteration + Z.of_nat (S remaining)
               /\ (S remaining <> O -> iteration < iteration')
               /\ Z.of_nat (calls trace')
                  <= Z.of_nat (calls trace) + 4 * (iteration' - iteration)).
    { intros added Hadded E'. injection E' as <- <- <- <-.
      split; [exists added; split; [reflexivity | exact Hadded] |].
      rewrite calls_app. repeat split; lia. }
    destruct r as [response | e].
    + destruct (String.eqb (resp_finish_reason response) "stop").
      { destruct (String.eqb (resp_content response) "").
        - injection E as <- <- <- <- <-.
          apply (Hstop []); [constructor | rewrite app_nil_r; reflexivity].
        - injection E as <- <- <- <- <-.
          apply (Hstop [mkChatMessage assistant (resp_content response) None None None]);
            [repeat constructor | reflexivity]. }
      destruct (String.eqb (resp_finish_reason response) "tool_calls"
                && negb (Nat.eqb (List.length (requested response)) 0)).
      * destruct (run_tool_calls_appends (requested response)
                    (history ++ [mkChatMessage assistant "" None None
                                               (Some (requested response))])
                    chunks) as [msgs [more [Hrun [Hroles _]]]].
        rewrite Hrun in E.
        apply IH in E. destruct E as [[added [-> Hadded]] [Hit [Hlt Hc]]].
        split.
        -- exists ([mkChatMessage assistant "" None None (Some (requested response))]
                   ++ msgs ++ added).
           split; [rewrite <- !app_assoc; reflexivity |].
           apply Forall_app. split; [repeat constructor |].
           apply Forall_app. split; [| exact Hadded].
           clear - Hroles. revert msgs Hroles.
           induction (requested response) as [|tc l IHl]; intros [|m msgs] H;
             try discriminate H; constructor.
           ++ injection H as H _. right. exact H.
           ++ injection H as _ H. apply IHl. exact H.
        -- rewrite calls_app in Hc. repeat split; lia.
      * destruct (String.eqb (resp_content response) "").
        -- injection E as <- <- <- <- <-.
           apply (Hstop []); [constructor | rewrite app_nil_r; reflexivity].
        -- injection E as <- <- <- <- <-.
           apply (Hstop []); [constructor | rewrite app_nil_r; reflexivity].
    + injection E as <- <- <- <- <-.
      apply (Hstop []); [constructor | rewrite app_nil_r; reflexivity].
Qed.

Lemma chat_unfold (self : DexterAgent) (user_message : string) (svc : Svc) :
  turn self user_message svc
  = let '(iteration, history, chunks, svc', trace) :=
      loop 10%nat 0 (opening self user_message) [] svc [] in
    mkChatRun (mkDexterAgent history (system_prompt self) (turn_count self + 1))
              (if iteration >=? 10
               then chunks ++ [Text max_iterations_reached_notice]
               else chunks)
              iteration svc' trace.
Proof.
  unfold chat, opening. destruct (conversation_history self); reflexivity.
Qed.

End TurnFacts.

(** X13.  When the first completion of a turn has finish reason stop and a
    non-empty text, the turn makes that single completion request, yields the text
    as its only chunk, and leaves the transcript as the opening (the history,
    seeded with the system prompt if it was empty, and the user message) followed
    by one assistant message with the text. *)
Theorem chat_answers_on_first_stop :
  forall (Svc : Type)
         (create : list ChatMessage -> Svc -> outcome OpenAIResponse * Svc)
         (calculate_roi forecast_sales calculate_pnl generate_balance_sheet
          generate_cash_flow_statement analyze_break_even : Json -> outcome Dict)
         (json_loads : string -> option Json) (json_dumps : Dict -> string)
         (self : DexterAgent) (user_message : string) (svc svc' : Svc)
         (response : OpenAIResponse),
    create (opening self user_message) svc = (Returned response, svc') ->
    resp_finish_reason response = "stop" ->
    resp_content response <> "" ->
    chat create calculate_roi forecast_sales calculate_pnl generate_balance_sheet
         generate_cash_flow_statement analyze_break_even json_loads json_dumps
         self user_message svc
    = mkChatRun
        (mkDexterAgent
           (opening self user_message
            ++ [mkChatMessage assistant (resp_content response) None None None])
           (system_prompt self) (turn_count self + 1))
        [Text (resp_content response)] 1 svc' [EvCall 0 [EvCompletion]].
Proof.
  intros Svc create h1 h2 h3 h4 h5 h6 jl jd self user_message svc svc' response
         Hcreate Hstop Htext.
  rewrite chat_unfold. cbn [chat_loop].
  rewrite (call_openai_returns create _ svc svc' response Hcreate).
  rewrite Hstop. cbn [String.eqb Ascii.eqb Bool.eqb andb].
  apply String.eqb_neq in Htext. rewrite Htext. reflexivity.
Qed.

Lemma chat_answers_on_first_stop_witness :
  sample_chat (replay [Returned (stop_response "Hello")]) fresh_agent "Hi"
  = mkChatRun
      (mkDexterAgent
         (opening fresh_agent "Hi" ++ [mkChatMessage assistant "Hello" None None None])
         "You are Dexter." (0 + 1))
      [Text "Hello"] 1 1%nat [EvCall 0 [EvCompletion]].
Proof.
  apply (chat_answers_on_first_stop nat (replay [Returned (stop_response "Hello")])
           roi_tool failing_tool idle_tool idle_tool idle_tool idle_tool
           sample_loads sample_dumps fresh_agent "Hi" 0%nat 1%nat
           (stop_response "Hello")).
  - reflexivity.
  - reflexivity.
  - discriminate.
Defined.

(** X14.  A first completion whose finish reason is neither stop nor a request
    for at least one tool ends the turn after that single request: a non-empty
    text is yielded but not stored, so the transcript stays at the opening; this
    includes finish reason tool_calls with an empty list of invocations. *)
Theorem chat_other_finish_reason :
  forall (Svc : Type)
         (create : list ChatMessage -> Svc -> outcome OpenAIResponse * Svc)
         (calculate_roi forecast_sales calculate_pnl generate_balance_sheet
          generate_cash_flow_statement analyze_break_even : Json -> outcome Dict)
         (json_loads : string -> option Json) (json_dumps : Dict -> string)
         (self : DexterAgent) (user_message : string) (svc svc' : Svc)
         (response : OpenAIResponse),
    create (opening self user_message) svc = (Returned response, svc') ->
    resp_finish_reason response <> "stop" ->
    resp_finish_reason response <> "tool_calls" \/ requested response = [] ->
    chat create calculate_roi forecast_sales calculate_pnl generate_balance_sheet
         generate_cash_flow_statement analyze_break_even json_loads json_dumps
         self user_message svc
    = mkChatRun
        (mkDexterAgent (opening self user_message) (system_prompt self)
                       (turn_count self + 1))
        (if String.eqb (resp_content response) "" then []
         else [Text (resp_content response)])
        1 svc' [EvCall 0 [EvCompletion]].
Proof.
  intros Svc create h1 h2 h3 h4 h5 h6 jl jd self user_message svc svc' response
         Hcreate Hstop Hother.
  rewrite chat_unfold. cbn [chat_loop].
  rewrite (call_openai_returns create _ svc svc' response Hcreate).
  apply String.eqb_neq in Hstop. rewrite Hstop.
  replace (String.eqb (resp_finish_reason response) "tool_calls"
           && negb (Nat.eqb (List.length (requested response)) 0)) with false.
  - destruct (String.eqb (resp_content response) ""); reflexivity.
  - symmetry. destruct Hother as [H | H].
    + apply String.eqb_neq in H. rewrite H. reflexivity.
    + rewrite H. apply andb_false_r.
Qed.

Lemma chat_other_finish_reason_witness :
  sample_chat
    (replay [Returned (mkOpenAIResponse "Die Antwort ist" 4096 "gpt-4" "length" None)])
    fresh_agent "Hi"
  = mkChatRun
      (mkDexterAgent (opening fresh_agent "Hi") "You are Dexter." (0 + 1))
      (if String.eqb "Die Antwort ist" "" then [] else [Text "Die Antwort ist"])
      1 1%nat [EvCall 0 [EvCompletion]].
Proof.
  apply (chat_other_finish_reason nat
           (replay [Returned (mkOpenAIResponse "Die Antwort ist" 4096 "gpt-4"
                                               "length" None)])
           roi_tool failing_tool idle_tool idle_tool idle_tool idle_tool
           sample_loads sample_dumps fresh_agent "Hi" 0%nat 1%nat
           (mkOpenAIResponse "Die Antwort ist" 4096 "gpt-4" "length" None)).
  - reflexivity.
  - discriminate.
  - left. discriminate.
Defined.

(** X15.  When the first completion request of a turn fails with an error that is
    classified as not retryable, the turn makes that single request, yields one
    error notice that quotes the text of the service error, does not yield the
    notice about the maximal number of iterations, and keeps the user message in
    the transcript. *)
Theorem chat_reports_permanent_failure :
  forall (Svc : Type)
         (create : list ChatMessage -> Svc -> outcome OpenAIResponse * Svc)
         (calculate_roi forecast_sales calculate_pnl generate_balance_sheet
          generate_cash_flow_statement analyze_break_even : Json -> outcome Dict)
         (json_loads : string -> option Json) (json_dumps : Dict -> string)
         (self : DexterAgent) (user_message : string) (svc svc' : Svc)
         (e : PyException),
    create (opening self user_message) svc = (Raised e, svc') ->
    retryable (classify_error (service_error e)) = false ->
    chat create calculate_roi forecast_sales calculate_pnl generate_balance_sheet
         generate_cash_flow_statement analyze_break_even json_loads json_dumps
         self user_message svc
    = mkChatRun
        (mkDexterAgent (opening self user_message) (system_prompt self)
                       (turn_count self + 1))
        [Text (nl2 ++ "❌ Ein Fehler ist aufgetreten: "
                   ++ "Fehler bei OpenAI API Call: " ++ py_str e ++ nl2)%string]
        1 svc' [EvCall 0 [EvCompletion]].
Proof.
  intros Svc create h1 h2 h3 h4 h5 h6 jl jd self user_message svc svc' e Hcreate Hr.
  rewrite chat_unfold. cbn [chat_loop].
  rewrite (call_openai_fails_fast create _ svc svc' e Hcreate Hr).
  cbn [error_notice]. rewrite classify_error_message. reflexivity.
Qed.

Lemma chat_reports_permanent_failure_witness :
  sample_chat
    (replay [Raised (OtherException "AuthenticationError" "Incorrect API key provided")])
    fresh_agent "Hi"
  = mkChatRun
      (mkDexterAgent (opening fresh_agent "Hi") "You are Dexter." (0 + 1))
      [Text (nl2 ++ "❌ Ein Fehler ist aufgetreten: "
                 ++ "Fehler bei OpenAI API Call: "
                 ++ py_str (OtherException "AuthenticationError"
                                           "Incorrect API key provided")
                 ++ nl2)%string]
      1 1%nat [EvCall 0 [EvCompletion]].
Proof.
  apply (chat_reports_permanent_failure nat
           (replay [Raised (OtherException "AuthenticationError"
                                           "Incorrect API key provided")])
           roi_tool failing_tool idle_tool idle_tool idle_tool idle_tool
           sample_loads sample_dumps fresh_agent "Hi" 0%nat 1%nat
           (OtherException "AuthenticationError" "Incorrect API key provided")).
  - reflexivity.
  - vm_compute. reflexivity.
Defined.

(** X16.  A turn only appends to the transcript.  Whatever the service and the
    tools do, the transcript after the turn is the opening (the history, seeded
    with the system prompt if it was empty, and the user message) followed by
    assistant and tool messages only; the turn counter grows by one and the system
    prompt is kept.  So a failing turn is not rolled back and no second system
    message is ever stored. *)
Theorem chat_appends_to_transcript :
  forall (Svc : Type)
         (create : list ChatMessage -> Svc -> outcome OpenAIResponse * Svc)
         (calculate_roi forecast_sales calculate_pnl generate_balance_sheet
          generate_cash_flow_statement analyze_break_even : Json -> outcome Dict)
         (json_loads : string -> option Json) (json_dumps : Dict -> string)
         (self : DexterAgent) (user_message : string) (svc : Svc),
    let run :=
      chat create calculate_roi forecast_sales calculate_pnl generate_balance_sheet
           generate_cash_flow_statement analyze_break_even json_loads json_dumps
           self user_message svc in
    (exists added,
        conversation_history (run_agent run) = opening self user_message ++ added
        /\ Forall (fun m => role m = assistant \/ role m = tool) added)
    /\ turn_count (run_agent run) = turn_count self + 1
    /\ system_prompt (run_agent run) = system_prompt self.
Proof.
  intros Svc create h1 h2 h3 h4 h5 h6 jl jd self user_message svc run. subst run.
  rewrite chat_unfold.
  destruct (chat_loop create h1 h2 h3 h4 h5 h6 jl jd 10 0
                      (opening self user_message) [] svc [])
    as [[[[iteration history] chunks] svc'] trace] eqn:E.
  apply chat_loop_grows in E. destruct E as [Hadded _].
  cbn [run_agent conversation_history turn_count system_prompt].
  split; [exact Hadded | split; reflexivity].
Qed.

(** X17.  Whatever the service and the tools do, a turn runs between one and ten
    iterations of its loop and makes at most four completion requests per
    iteration, hence at most forty in all. *)
Theorem chat_is_bounded :
  forall (Svc : Type)
         (create : list ChatMessage -> Svc -> outcome OpenAIResponse * Svc)
         (calculate_roi forecast_sales calculate_pnl generate_balance_sheet
          generate_cash_flow_statement analyze_break_even : Json -> outcome Dict)
         (json_loads : string -> option Json) (json_dumps : Dict -> string)
         (self : DexterAgent) (user_message : string) (svc : Svc),
    let run :=
      chat create calculate_roi forecast_sales calculate_pnl generate_balance_sheet
           generate_cash_flow_statement analyze_break_even json_loads json_dumps
           self user_message svc in
    1 <= run_iteration run <= 10
    /\ Z.of_nat (completions (run_trace run)) <= 4 * run_iteration run
    /\ Z.of_nat (completions (run_trace run)) <= 40.
Proof.
  intros Svc create h1 h2 h3 h4 h5 h6 jl jd self user_message svc run. subst run.
  rewrite chat_unfold.
  pose proof (chat_loop_trace create h1 h2 h3 h4 h5 h6 jl jd 10 0
                (opening self user_message) [] svc [] eq_refl) as Htrace.
  destruct (chat_loop create h1 h2 h3 h4 h5 h6 jl jd 10 0
                      (opening self user_message) [] svc [])
    as [[[[iteration history] chunks] svc'] trace] eqn:E.
  cbn [snd] in Htrace.
  apply chat_loop_grows in E. destruct E as [_ [Hit [Hpos Hcalls]]].
  specialize (Hpos ltac:(discriminate)).
  cbn [run_iteration run_trace].
  rewrite (retry_events_completions trace Htrace).
  change (calls []) with O in Hcalls. lia.
Qed.


(** X19.  A transient failure is hidden from the caller.  When the first
    completion request of a turn fails with an error classified as retryable and
    the second one, made after the wait that the class of the error asks for,
    returns finish reason stop with a non-empty text, the turn yields that text
    only and stores it as for an undisturbed turn. *)
Theorem chat_recovers_from_transient_failure :
  forall (Svc : Type)
         (create : list ChatMessage -> Svc -> outcome OpenAIResponse * Svc)
         (calculate_roi forecast_sales calculate_pnl generate_balance_sheet
          generate_cash_flow_statement analyze_break_even : Json -> outcome Dict)
         (json_loads : string -> option Json) (json_dumps : Dict -> string)
         (self : DexterAgent) (user_message : string) (svc svc1 svc2 : Svc)
         (e : PyException) (response : OpenAIResponse),
    create (opening self user_message) svc = (Raised e, svc1) ->
    retryable (classify_error (service_error e)) = true ->
    create (opening self user_message) svc1 = (Returned response, svc2) ->
    resp_finish_reason response = "stop" ->
    resp_content response <> "" ->
    chat create calculate_roi forecast_sales calculate_pnl generate_balance_sheet
         generate_cash_flow_statement analyze_break_even json_loads json_dumps
         self user_message svc
    = mkChatRun
        (mkDexterAgent
           (opening self user_message
            ++ [mkChatMessage assistant (resp_content response) None None None])
           (system_prompt self) (turn_count self + 1))
        [Text (resp_content response)] 1 svc2
        [EvCall 0 [EvCompletion];
         EvSleep (retry_delay (classify_error (service_error e)) 1 true 0);
         EvCall 1 [EvCompletion]].
Proof.
  intros Svc create h1 h2 h3 h4 h5 h6 jl jd self user_message svc svc1 svc2 e response
         Hfail Hr Hcreate Hstop Htext.
  rewrite chat_unfold. cbn [chat_loop].
  unfold _call_openai, retry_on_error, with_retry.
  change (py_range (3 + 1)) with [0; 1; 2; 3]. cbn [retry_loop].
  unfold generate_response. rewrite Hfail. fold (service_error e). rewrite Hr.
  cbn [negb]. change (0 >=? 3) with false. cbv iota.
  rewrite Hcreate. cbn [app].
  rewrite Hstop. cbn [String.eqb Ascii.eqb Bool.eqb andb].
  apply String.eqb_neq in Htext. rewrite Htext. reflexivity.
Qed.

Lemma chat_recovers_from_transient_failure_witness :
  sample_chat
    (replay [Raised (OtherException "APIError" "503 Service Unavailable");
             Returned (stop_response "Hello")])
    fresh_agent "Hi"
  = mkChatRun
      (mkDexterAgent
         (opening fresh_agent "Hi" ++ [mkChatMessage assistant "Hello" None None None])
         "You are Dexter." (0 + 1))
      [Text "Hello"] 1 2%nat
      [EvCall 0 [EvCompletion];
       EvSleep (retry_delay
                  (classify_error
                     (service_error (OtherException "APIError" "503 Service Unavailable")))
                  1 true 0);
       EvCall 1 [EvCompletion]].
Proof.
  apply (chat_recovers_from_transient_failure nat
           (replay [Raised (OtherException "APIError" "503 Service Unavailable");
                    Returned (stop_response "Hello")])
           roi_tool failing_tool idle_tool idle_tool idle_tool idle_tool
           sample_loads sample_dumps fresh_agent "Hi" 0%nat 1%nat 2%nat
           (OtherException "APIError" "503 Service Unavailable")
           (stop_response "Hello")).
  - reflexivity.
  - vm_compute. reflexivity.
  - reflexivity.
  - reflexivity.
  - discriminate.
Defined.

Lemma reset_then_opening (self : DexterAgent) (user_message : string) :
  opening (reset_conversation self) user_message
  = [mkChatMessage system (system_prompt self) None None None;
     mkChatMessage user user_message None None None].
Proof. reflexivity. Qed.

(** X20.  After [reset_conversation], the next turn starts a new transcript: it
    begins with the system prompt and the user message of that turn, whatever the
    history was before the reset, and the turn counter is 1. *)
Theorem chat_after_reset_starts_anew :
  forall (Svc : Type)
         (create : list ChatMessage -> Svc -> outcome OpenAIResponse * Svc)
         (calculate_roi forecast_sales calculate_pnl generate_balance_sheet
          generate_cash_flow_statement analyze_break_even : Json -> outcome Dict)
         (json_loads : string -> option Json) (json_dumps : Dict -> string)
         (self : DexterAgent) (user_message : string) (svc : Svc),
    let run :=
      chat create calculate_roi forecast_sales calculate_pnl generate_balance_sheet
           generate_cash_flow_statement analyze_break_even json_loads json_dumps
           (reset_conversation self) user_message svc in
    (exists added,
        conversation_history (run_agent run)
        = mkChatMessage system (system_prompt self) None None None
          :: mkChatMessage user user_message None None None :: added
        /\ Forall (fun m => role m <> system) added)
    /\ turn_count (run_agent run) = 1.
Proof.
  intros Svc create h1 h2 h3 h4 h5 h6 jl jd self user_message svc run. subst run.
  rewrite chat_unfold, reset_then_opening.
  destruct (chat_loop create h1 h2 h3 h4 h5 h6 jl jd 10 0 _ [] svc [])
    as [[[[iteration history] chunks] svc'] trace] eqn:E.
  apply chat_loop_grows in E. destruct E as [[added [-> Hadded]] _].
  cbn [run_agent conversation_history turn_count reset_conversation].
  split; [| reflexivity].
  exists added. split; [reflexivity |].
  eapply Forall_impl; [| exact Hadded].
  intros m [H | H]; rewrite H; discriminate.
Qed.

(* ------------------------------------------------------------------ *)
(** ** Tool definitions *)

Lemma dict_mem_get (key : string) (d : Dict) :
  dict_mem key d = true <-> exists v, dict_get key d = Some v.
Proof.
  unfold dict_mem, dict_get. induction d as [|[k v] d IH]; cbn [existsb find fst].
  - split; [discriminate | intros [v H]; discriminate H].
  - destruct (String.eqb k key); cbn [orb option_map snd].
    + split; [intros _; eexists; reflexivity | reflexivity].
    + exact IH.
Qed.

Lemma dict_mem_false (key : string) (d : Dict) :
  dict_mem key d = false <-> dict_get key d = None.
Proof.
  pose proof (dict_mem_get key d) as H.
  destruct (dict_mem key d), (dict_get key d) as [v |]; split; intros E;
    try reflexivity; try discriminate E.
  - destruct (proj1 H eq_refl) as [v E']. discriminate E'.
  - assert (false = true) by (apply H; eexists; reflexivity). discriminate.
Qed.

Lemma convert_tool_with_keys (anthropic_tool : Dict) :
  has_tool_keys anthropic_tool = true ->
  exists n d p,
    dict_get "name" anthropic_tool = Some n
    /\ dict_get "description" anthropic_tool = Some d
    /\ dict_get "input_schema" anthropic_tool = Some p
    /\ convert_anthropic_tool_to_openai anthropic_tool
       = Returned [("type", JStr "function");
                   ("function", JObj [("name", n); ("description", d);
                                      ("parameters", p)])].
Proof.
  unfold has_tool_keys. rewrite !andb_true_iff, !dict_mem_get.
  intros [[[n Hn] [d Hd]] [p Hp]]. exists n, d, p.
  unfold convert_anthropic_tool_to_openai, dict_item. rewrite Hn, Hd, Hp.
  repeat split.
Qed.

Lemma convert_tool_without_keys (anthropic_tool : Dict) :
  has_tool_keys anthropic_tool = false ->
  exists key,
    convert_anthropic_tool_to_openai anthropic_tool = Raised (KeyError key)
    /\ In key ["name"; "description"; "input_schema"]
    /\ dict_get key anthropic_tool = None.
Proof.
  unfold has_tool_keys, convert_anthropic_tool_to_openai, dict_item. intros H.
  destruct (dict_get "name" anthropic_tool) as [n |] eqn:Hn.
  2: { exists "name". repeat split; [left; reflexivity | exact Hn]. }
  destruct (dict_get "description" anthropic_tool) as [d |] eqn:Hd.
  2: { exists "description". repeat split; [right; left; reflexivity | exact Hd]. }
  destruct (dict_get "input_schema" anthropic_tool) as [p |] eqn:Hp.
  2: { exists "input_schema". repeat split; [right; right; left; reflexivity | exact Hp]. }
  exfalso.
  assert (H1 : dict_mem "name" anthropic_tool = true)
    by (apply dict_mem_get; eexists; exact Hn).
  assert (H2 : dict_mem "description" anthropic_tool = true)
    by (apply dict_mem_get; eexists; exact Hd).
  assert (H3 : dict_mem "input_schema" anthropic_tool = true)
    by (apply dict_mem_get; eexists; exact Hp).
  rewrite H1, H2, H3 in H. discriminate H.
Qed.

(** X21.  When every tool definition has the keys "name", "description" and
    "input_schema", [convert_tools_to_openai] returns one converted definition per
    tool, in the same order: each has the type "function" and a function entry
    made of exactly the name, the description and, under "parameters", the input
    schema of its tool; other keys of the tool are dropped. *)
Theorem convert_tools_to_openai_converts_each :
  forall anthropic_tools : list Dict,
    forallb has_tool_keys anthropic_tools = true ->
    exists converted,
      convert_tools_to_openai anthropic_tools = Returned converted
      /\ Forall2
           (fun anthropic_tool openai_tool =>
              exists n d p,
                dict_get "name" anthropic_tool = Some n
                /\ dict_get "description" anthropic_tool = Some d
                /\ dict_get "input_schema" anthropic_tool = Some p
                /\ openai_tool
                   = [("type", JStr "function");
                      ("function", JObj [("name", n); ("description", d);
                                         ("parameters", p)])])
           anthropic_tools converted.
Proof.
  induction anthropic_tools as [|t tools IH]; intros H.
  - exists []. split; [reflexivity | constructor].
  - cbn [forallb] in H. apply andb_true_iff in H. destruct H as [Ht Hrest].
    destruct (convert_tool_with_keys t Ht) as [n [d [p [Hn [Hd [Hp Hc]]]]]].
    destruct (IH Hrest) as [converted [Hrun Hall]].
    cbn [convert_tools_to_openai]. rewrite Hc, Hrun.
    eexists. split; [reflexivity |]. constructor; [| exact Hall].
    exists n, d, p. repeat split; assumption.
Qed.

Lemma convert_tools_to_openai_converts_each_witness :
  exists converted,
    convert_tools_to_openai
      [[("name", JStr "echo"); ("description", JStr "Echoes its input");
        ("input_schema", JObj [("type", JStr "object")]); ("version", JNum 2)]]
    = Returned converted
    /\ Forall2
         (fun anthropic_tool openai_tool =>
            exists n d p,
              dict_get "name" anthropic_tool = Some n
              /\ dict_get "description" anthropic_tool = Some d
              /\ dict_get "input_schema" anthropic_tool = Some p
              /\ openai_tool
                 = [("type", JStr "function");
                    ("function", JObj [("name", n); ("description", d);
                                       ("parameters", p)])])
         [[("name", JStr "echo"); ("description", JStr "Echoes its input");
           ("input_schema", JObj [("type", JStr "object")]); ("version", JNum 2)]]
         converted.
Proof.
  apply (convert_tools_to_openai_converts_each
           [[("name", JStr "echo"); ("description", JStr "Echoes its input");
             ("input_schema", JObj [("type", JStr "object")]); ("version", JNum 2)]]).
  reflexivity.
Defined.

(** X22.  When some tool definition lacks one of the keys "name", "description"
    or "input_schema", [convert_tools_to_openai] returns no list at all: it raises
    the key error of a key that is missing in one of the tools. *)
Theorem convert_tools_to_openai_missing_key :
  forall anthropic_tools : list Dict,
    forallb has_tool_keys anthropic_tools = false ->
    exists key anthropic_tool,
      convert_tools_to_openai anthropic_tools = Raised (KeyError key)
      /\ In key ["name"; "description"; "input_schema"]
      /\ In anthropic_tool anthropic_tools
      /\ dict_get key anthropic_tool = None.
Proof.
  induction anthropic_tools as [|t tools IH]; intros H; [discriminate H |].
  cbn [forallb] in H. cbn [convert_tools_to_openai].
  destruct (has_tool_keys t) eqn:Ht.
  - destruct (convert_tool_with_keys t Ht) as [n [d [p [_ [_ [_ Hc]]]]]].
    rewrite Hc. cbn [andb] in H.
    destruct (IH H) as [key [bad [Hrun [Hkey [Hin Hget]]]]].
    rewrite Hrun. exists key, bad. repeat split; try assumption. right. exact Hin.
  - destruct (convert_tool_without_keys t Ht) as [key [Hc [Hkey Hget]]].
    rewrite Hc. exists key, t. repeat split; try assumption. left. reflexivity.
Qed.

Lemma convert_tools_to_openai_missing_key_witness :
  exists key anthropic_tool,
    convert_tools_to_openai
      [[("name", JStr "echo"); ("description", JStr "Echoes its input");
        ("input_schema", JObj [])];
       [("name", JStr "broken"); ("input_schema", JObj [])]]
    = Raised (KeyError key)
    /\ In key ["name"; "description"; "input_schema"]
    /\ In anthropic_tool
          [[("name", JStr "echo"); ("description", JStr "Echoes its input");
            ("input_schema", JObj [])];
           [("name", JStr "broken"); ("input_schema", JObj [])]]
    /\ dict_get key anthropic_tool = None.
Proof.
  apply (convert_tools_to_openai_missing_key
           [[("name", JStr "echo"); ("description", JStr "Echoes its input");
             ("input_schema", JObj [])];
            [("name", JStr "broken"); ("input_schema", JObj [])]]).
  reflexivity.
Defined.

(** X23.  The catalogue of [register_dexter_tools] and the dispatch of
    [_execute_tool] agree: the catalogue has six entries of type "function" with
    pairwise different names, and a name is advertised in the catalogue if and
    only if the dispatch has a handler for it. *)
Theorem catalogue_matches_dispatch :
  forall (d1 d2 d3 d4 d5 d6 : string) (p1 p2 p3 p4 p5 p6 : Json)
         (calculate_roi forecast_sales calculate_pnl generate_balance_sheet
          generate_cash_flow_statement analyze_break_even : Json -> outcome Dict),
    let catalogue := register_dexter_tools d1 d2 d3 d4 d5 d6 p1 p2 p3 p4 p5 p6 in
    List.length catalogue = 6%nat
    /\ Forall (fun t => dict_get "type" t = Some (JStr "function")) catalogue
    /\ NoDup (map function_name catalogue)
    /\ (forall tool_name : string,
          In (Some tool_name) (map function_name catalogue)
          <-> lookup_tool calculate_roi forecast_sales calculate_pnl
                          generate_balance_sheet generate_cash_flow_statement
                          analyze_break_even tool_name <> None).
Proof.
  intros d1 d2 d3 d4 d5 d6 p1 p2 p3 p4 p5 p6 h1 h2 h3 h4 h5 h6 catalogue.
  subst catalogue.
  assert (Hnames : map function_name
                       (register_dexter_tools d1 d2 d3 d4 d5 d6 p1 p2 p3 p4 p5 p6)
                   = [Some "calculate_roi"; Some "forecast_sales"; Some "calculate_pnl";
                      Some "generate_balance_sheet";
                      Some "generate_cash_flow_statement";
                      Some "analyze_break_even"]) by reflexivity.
  split; [reflexivity |]. split; [repeat constructor |]. rewrite Hnames.
  split.
  - repeat constructor; cbn [In]; intros H;
      repeat (destruct H as [H | H]; [discriminate H |]); exact H.
  - intros tool_name. unfold lookup_tool, registry. cbn [find fst snd]. split.
    + cbn [In]. intros H.
      repeat (destruct H as [H | H];
              [injection H as <-; cbn; discriminate |]).
      contradiction.
    + intros H. cbn [In].
      repeat match type of H with
             | context [String.eqb tool_name ?k] =>
                 let E := fresh "E" in
                 destruct (String.eqb tool_name k) eqn:E;
                 [apply String.eqb_eq in E; subst tool_name; tauto |]
             end.
      cbn in H. contradiction.
Qed.

(* ------------------------------------------------------------------ *)
(** ** Message conversion *)

(** X24.  [_convert_messages] turns every message, in order, into a dictionary
    from which the role and the content can always be read back, and the name, the
    id of the tool call and the tool calls exactly when they are set and not
    empty: an empty name, id or list of tool calls is left out like a missing
    one. *)
Theorem convert_messages_fields :
  forall messages : list ChatMessage,
    Forall2
      (fun msg d =>
         dict_get "role" d = Some (JStr (role_str (role msg)))
         /\ dict_get "content" d = Some (JStr (content msg))
         /\ dict_get "name" d
            = match name msg with
              | Some (String c s) => Some (JStr (String c s))
              | _ => None
              end
         /\ dict_get "tool_call_id" d
            = match tool_call_id msg with
              | Some (String c s) => Some (JStr (String c s))
              | _ => None
              end
         /\ dict_get "tool_calls" d
            = match tool_calls msg with
              | Some (tc :: tcs) => Some (JArr (map tool_call_dict (tc :: tcs)))
              | _ => None
              end)
      messages (_convert_messages messages).
Proof.
  induction messages as [|msg messages IH]; [constructor |].
  cbn [_convert_messages map]. constructor; [| exact IH].
  unfold convert_message.
  destruct (name msg) as [[|c1 s1] |]; destruct (tool_call_id msg) as [[|c2 s2] |];
    destruct (tool_calls msg) as [[|tc tcs] |]; repeat split.
Qed.

(* ------------------------------------------------------------------ *)
(** ** The service error and its classification *)

(** The text that [generate_response] puts in front of a failure adds no marker
    and completes none. *)
Ltac prefix_adds_no_marker marker :=
  assert (forall s : string,
             contains marker (lower ("Fehler bei OpenAI API Call: " ++ s)%string)
             = contains marker (lower s))
    by (intros; reflexivity).

(** X25.  Wrapping a failure of the completion service into the service error of
    [generate_response] does not change how it is classified: the class, the
    status code, the retryability and the retry_after are those of the original
    failure, and the message is the original text behind the prefix. *)
Theorem service_error_keeps_class :
  forall e : PyException,
    err_class (classify_error (service_error e)) = err_class (classify_error e)
    /\ status_code (classify_error (service_error e)) = status_code (classify_error e)
    /\ retryable (classify_error (service_error e)) = retryable (classify_error e)
    /\ retry_after (classify_error (service_error e)) = retry_after (classify_error e)
    /\ message (classify_error (service_error e))
       = ("Fehler bei OpenAI API Call: " ++ py_str e)%string.
Proof.
  intros e.
  prefix_adds_no_marker "rate limit". prefix_adds_no_marker "429".
  prefix_adds_no_marker "authentication". prefix_adds_no_marker "401".
  prefix_adds_no_marker "api key". prefix_adds_no_marker "400".
  prefix_adds_no_marker "invalid". prefix_adds_no_marker "503".
  prefix_adds_no_marker "unavailable". prefix_adds_no_marker "timeout".
  prefix_adds_no_marker "context length". prefix_adds_no_marker "token limit".
  split; [| split; [| split; [| split]]];
    try apply classify_error_message.
  all: unfold classify_error, service_error; cbn [py_str];
    repeat match goal with
           | H : forall s : string, _ = _ |- _ => rewrite H; clear H
           end;
    repeat match goal with
           | |- context [if ?c then _ else _] => destruct c
           end; reflexivity.
Qed.

(* ------------------------------------------------------------------ *)
(** ** One round of tools *)



(* ------------------------------------------------------------------ *)
(** ** History trimming and the minimal estimate *)

Lemma length_le_sum_tokens (l : list ChatMessage) :
  Z.of_nat (List.length l) <= sum_tokens l.
Proof.
  induction l as [|m l IH]; simpl List.length; simpl sum_tokens; [lia |].
  pose proof (estimate_tokens_pos (content m)). lia.
Qed.

(** X27.  Every message costs at least one estimated token, so the trimmed history
    holds, besides the system messages, at most as many messages as tokens remain
    in the budget after the system messages, and none when nothing remains. *)
Theorem trim_conversation_history_count :
  forall (messages : list ChatMessage) (max_tokens : Z),
    let system_messages := filter (fun m => is_system (role m)) messages in
    Z.of_nat (List.length (trim_conversation_history messages max_tokens))
    <= Z.of_nat (List.length system_messages)
       + Z.max 0 (max_tokens - sum_tokens system_messages).
Proof.
  intros messages max_tokens system_messages.
  destruct (trim_conversation_history_walk messages max_tokens)
    as [kept [Hw [_ Hfit]]].
  fold system_messages in Hw, Hfit. rewrite Hw, length_app.
  pose proof (length_le_sum_tokens kept).
  destruct Hfit as [-> | Hfit]; simpl List.length in *; lia.
Qed.
